(** * CBC chain bootstrap: a shallow embedding of [internal/cbc] and of the
    part of [internal/service] that drives it.

    Go strings are byte sequences and are modelled by [string] (lists of
    8-bit [ascii]); Go [int] values are modelled by [Z] (no arithmetic is
    performed on them by this code, only comparisons and printing).  The
    node, the database and the JSON decoder are collaborators of the code:
    the database is an interface ([IDao]) over an abstract store, the JSON
    decoder is an interface ([Unmarshaler]) and the node is a function
    giving the outcome of each HTTP exchange.  Effects are threaded through
    a state monad over a [World] that holds the store, the count of RPC
    invocations and the trace of observable events. *)

From Stdlib Require Import List ZArith Lia Bool Ascii String DecimalString.
Import ListNotations.

Open Scope string_scope.

(* ------------------------------------------------------------------ *)
(** ** The Go [strings] functions the code calls *)

Module strings.

(** [s[:n]] *)
Fixpoint slice_to (s : string) (n : nat) {struct n} : string :=
  match n, s with
  | S n', String a s' => String a (slice_to s' n')
  | _, _ => EmptyString
  end.

(** [s[n:]] *)
Fixpoint slice_from (s : string) (n : nat) {struct n} : string :=
  match n, s with
  | S n', String _ s' => slice_from s' n'
  | _, _ => s
  end.

(** [len(s) >= len(prefix) && s[:len(prefix)] == prefix] *)
Definition HasPrefix (s prefix : string) : bool :=
  (length prefix <=? length s)%nat
  && String.eqb (slice_to s (length prefix)) prefix.

(** [len(s) >= len(suffix) && s[len(s)-len(suffix):] == suffix] *)
Definition HasSuffix (s suffix : string) : bool :=
  (length suffix <=? length s)%nat
  && String.eqb (slice_from s (length s - length suffix)) suffix.

(** [strings.Index]: the position of the first instance of [substr] in
    [s]; Go's [-1] is [None]. *)
Fixpoint Index (s substr : string) : option nat :=
  if HasPrefix s substr then Some O
  else match s with
       | EmptyString => None
       | String _ s' => option_map S (Index s' substr)
       end.

(** [strings.Contains(s, substr)] is [Index(s, substr) >= 0]. *)
Definition Contains (s substr : string) : bool :=
  match Index s substr with Some _ => true | None => false end.

(** [strings.Replace(s, old, new, 1)]: the first instance of [old]
    replaced by [new], [s] itself when there is none. *)
Definition Replace1 (s old new : string) : string :=
  match Index s old with
  | None => s
  | Some j => slice_to s j ++ new ++ slice_from s (j + length old)
  end.

(** The byte-wise lower-casing of [strings.ToLower]: ['A'..'Z'] go to
    ['a'..'z'], every other byte stays.  (On bytes above 0x7f Go maps
    whole runes; no rune maps to or from the letters this code looks
    for, other than their ASCII capitals.) *)
Definition lower (a : ascii) : ascii :=
  let n := nat_of_ascii a in
  if ((65 <=? n) && (n <=? 90))%nat then ascii_of_nat (n + 32) else a.

Fixpoint ToLower (s : string) : string :=
  match s with
  | EmptyString => EmptyString
  | String a s' => String (lower a) (ToLower s')
  end.

End strings.
Import strings.

(* ------------------------------------------------------------------ *)
(** ** Endpoint translation *)

(** [CBCInitializer]; the [dao] field is the ambient store interface. *)
Record CBCInitializer := {
  nodeURL : string;
  httpURL : string;
  retries : Z;
  retryWait : Z
}.

(** [time.Second], in nanoseconds. *)
Definition Second : Z := 1000000000.

Definition NewCBCInitializer (wsEndpoint : string) : CBCInitializer :=
  let httpURL := Replace1 wsEndpoint "ws://" "http://" in
  let httpURL := Replace1 httpURL "wss://" "https://" in
  {| nodeURL := wsEndpoint;
     httpURL := httpURL;
     retries := 3;
     retryWait := 2 * Second |}.

Definition convertWSToHTTP (wsEndpoint : string) : string :=
  let httpEndpoint := wsEndpoint in
  if (5 <? length httpEndpoint)%nat && String.eqb (slice_to httpEndpoint 5) "ws://"
  then "http://" ++ slice_from httpEndpoint 5
  else if (6 <? length httpEndpoint)%nat && String.eqb (slice_to httpEndpoint 6) "wss://"
  then "https://" ++ slice_from httpEndpoint 6
  else httpEndpoint.

(* ------------------------------------------------------------------ *)
(** ** Errors and formatting *)

(** Go's [error] values as this code builds them: [errors.errorString]
    for a [fmt.Errorf] without [%w], [fmt.wrapError] for one with it. *)
Inductive error :=
| errorString (s : string)
| wrapError (msg : string) (err : error).

(** The [Error()] method. *)
Definition Error (e : error) : string :=
  match e with
  | errorString s => s
  | wrapError msg _ => msg
  end.

(** [errors.Unwrap] *)
Definition Unwrap (e : error) : option error :=
  match e with
  | errorString _ => None
  | wrapError _ err => Some err
  end.

(** [fmt.Errorf(text + "%w", err)].  A nil operand of [%w] is printed as a
    bad verb and nothing is wrapped. *)
Definition Errorf_w (text : string) (err : option error) : error :=
  match err with
  | Some e => wrapError (text ++ Error e) e
  | None => errorString (text ++ "%!w(<nil>)")
  end.

(** The verb [%d] on an [int]. *)
Definition fmt_d (z : Z) : string := NilZero.string_of_int (Z.to_int z).

(** A Go result pair [(T, error)]. *)
Inductive result (A : Type) :=
| Ok (a : A)
| Err (e : error).
Arguments Ok {A} a.
Arguments Err {A} e.

(* ------------------------------------------------------------------ *)
(** ** Data *)

(** [RPCRequest]; the only parameter this code ever sends is a string. *)
Record RPCRequest := {
  ID : Z;
  JSONRPC : string;
  Method : string;
  Params : list string
}.

Record RPCError := {
  Code : Z;
  Message : string
}.

(** [json.RawMessage] is a byte slice. *)
Definition RawMessage := string.

(** [RPCResponse] (its fields carry a prefix where the name is taken). *)
Record RPCResponse := {
  RespID : Z;
  RespJSONRPC : string;
  Result : RawMessage;
  RespError : option RPCError
}.

Record RuntimeVersion := {
  SpecName : string;
  ImplName : string;
  AuthoringVersion : Z;
  SpecVersion : Z;
  ImplVersion : Z;
  Apis : list (list string);
  TransactionVersion : Z;
  StateVersion : Z
}.

(** Modelled from the spec: the record type returned by
    [dao.RuntimeVersionRecent] is declared outside the sources at hand; it
    is the spec's RuntimeVersionRecord
    [{specName, specVersion, blockNumber, rawMetadata}].  The code reads
    its [SpecVersion] and [RawData] fields. *)
Record RuntimeVersionRecord := {
  RecName : string;
  RecSpecVersion : Z;
  RecBlockNum : Z;
  RawData : string
}.

(** The store interface [dao.IDao], as far as this code calls it.  The
    value returned by [CreateRuntimeVersion] is only ever printed. *)
Class IDao (Store : Type) := {
  RuntimeVersionRecent : Store -> option RuntimeVersionRecord;
  CreateRuntimeVersion : string -> Z -> Z -> Store -> Z * Store;
  SetRuntimeData : Z -> string -> string -> Store -> Z * Store
}.

(** [json.Unmarshal] at the three target types the code decodes into. *)
Class Unmarshaler := {
  Unmarshal_string : RawMessage -> result string;
  Unmarshal_RuntimeVersion : RawMessage -> result RuntimeVersion;
  Unmarshal_map : RawMessage -> option error
}.

(** What can happen to one invocation of [makeRPCCall], in the order in
    which the code looks at it. *)
Inductive Body :=
| ReadError (e : error)          (* io.ReadAll failed *)
| Malformed (e : error)          (* the body is not a response envelope *)
| Envelope (resp : RPCResponse).

Inductive Exchange :=
| MarshalError (e : error)       (* json.Marshal(req) failed *)
| RequestError (e : error)       (* http.NewRequest failed *)
| DoError (e : error)            (* client.Do failed *)
| Reply (StatusCode : Z) (body : Body).

(** The node: the outcome of the [k]-th invocation of [makeRPCCall]. *)
Definition Node := nat -> string -> RPCRequest -> Exchange.

Inductive Level := Info | Warning.

Inductive Event :=
| EvLog (lvl : Level) (msg : string)
| EvRPC (url : string) (req : RPCRequest)
| EvSleep (d : Z)
| EvCreateRuntimeVersion (name : string) (specVersion blockNum : Z)
| EvSetRuntimeData (specVersion : Z) (modules raw : string)
| EvLatest (spec : Z) (raw : string).

Record World (Store : Type) := {
  store : Store;
  rpcCalls : nat;
  trace : list Event
}.
Arguments store {Store} w.
Arguments rpcCalls {Store} w.
Arguments trace {Store} w.

(** The world [w] after [calls] further RPC invocations and the events
    [evs]. *)
Definition advance {Store} (w : World Store) (calls : nat) (evs : list Event)
  : World Store :=
  {| store := store w;
     rpcCalls := calls + rpcCalls w;
     trace := (trace w ++ evs)%list |}.

Definition setStore {Store} (w : World Store) (s : Store) : World Store :=
  {| store := s; rpcCalls := rpcCalls w; trace := trace w |}.

Definition is_rpc (ev : Event) : bool :=
  match ev with EvRPC _ _ => true | _ => false end.

Definition is_write (ev : Event) : bool :=
  match ev with
  | EvCreateRuntimeVersion _ _ _ | EvSetRuntimeData _ _ _ => true
  | _ => false
  end.

Definition http_StatusOK : Z := 200.

(** The 60 zero digits [VerifyDCFFinality] looks for. *)
Definition genesisSuffix : string :=
  "000000000000000000000000000000000000000000000000000000000000".

(* ------------------------------------------------------------------ *)
(** ** The code *)

Section Code.

Context {Store : Type} {dao : IDao Store} {json : Unmarshaler}.
Variable node : Node.

(** State passing over the world. *)
Definition M (A : Type) : Type := World Store -> A * World Store.

Definition ret {A} (a : A) : M A := fun w => (a, w).

Definition bind {A B} (m : M A) (k : A -> M B) : M B :=
  fun w => let (a, w') := m w in k a w'.

Notation "x <- m ;; k" := (bind m (fun x => k))
  (at level 61, m at next level, right associativity).
Notation "m ;; k" := (bind m (fun _ => k))
  (at level 61, right associativity).

Definition emit (ev : Event) : M unit := fun w => (tt, advance w 0 [ev]).

(** [util.Logger().Info] and [util.Logger().Warning] *)
Definition log (lvl : Level) (msg : string) : M unit := emit (EvLog lvl msg).

(** [time.Sleep] *)
Definition Sleep (d : Z) : M unit := emit (EvSleep d).

(** [metadata.Latest] *)
Definition Latest (spec : Z) (raw : string) : M unit := emit (EvLatest spec raw).

Definition dao_RuntimeVersionRecent : M (option RuntimeVersionRecord) :=
  fun w => (RuntimeVersionRecent (store w), w).

Definition dao_CreateRuntimeVersion (name : string) (specVersion blockNum : Z)
  : M Z := fun w =>
  let (created, s) := CreateRuntimeVersion name specVersion blockNum (store w) in
  (created, advance (setStore w s) 0 [EvCreateRuntimeVersion name specVersion blockNum]).

Definition dao_SetRuntimeData (specVersion : Z) (modules raw : string)
  : M Z := fun w =>
  let (affected, s) := SetRuntimeData specVersion modules raw (store w) in
  (affected, advance (setStore w s) 0 [EvSetRuntimeData specVersion modules raw]).

(** The exchange with the node of one invocation of [makeRPCCall]. *)
Definition roundTrip (url : string) (req : RPCRequest) : M Exchange := fun w =>
  (node (rpcCalls w) url req, advance w 1 [EvRPC url req]).

(** The checks of [makeRPCCall], in its order. *)
Definition rpcResult (x : Exchange) : result RPCResponse :=
  match x with
  | MarshalError err => Err (Errorf_w "failed to marshal request: " (Some err))
  | RequestError err => Err (Errorf_w "failed to create request: " (Some err))
  | DoError err => Err (Errorf_w "failed to make request: " (Some err))
  | Reply StatusCode body =>
      if negb (StatusCode =? http_StatusOK)%Z
      then Err (errorString ("unexpected status code: " ++ fmt_d StatusCode))
      else match body with
           | ReadError err => Err (Errorf_w "failed to read response: " (Some err))
           | Malformed err => Err (Errorf_w "failed to unmarshal response: " (Some err))
           | Envelope resp =>
               match RespError resp with
               | Some e =>
                   Err (errorString ("RPC error: " ++ Message e ++ " (code: "
                                     ++ fmt_d (Code e) ++ ")"))
               | None => Ok resp
               end
           end
  end.

Definition makeRPCCall (c : CBCInitializer) (req : RPCRequest)
  : M (result RPCResponse) :=
  x <- roundTrip (httpURL c) req ;;
  ret (rpcResult x).

(** The loop of [fetchMetadata]: [n] iterations remain, [i] is the loop
    counter. *)
Fixpoint fetchMetadata_loop (c : CBCInitializer) (n : nat) (i : Z)
  (lastErr : option error) : M (result string) :=
  match n with
  | O => ret (Err (Errorf_w ("failed after " ++ fmt_d (retries c) ++ " retries: ") lastErr))
  | S n' =>
      (if (0 <? i)%Z
       then log Warning ("Retry " ++ fmt_d i ++ "/" ++ fmt_d (retries c)
                         ++ ": Fetching metadata...") ;;
            Sleep (retryWait c)
       else ret tt) ;;
      let req := {| ID := 1; JSONRPC := "2.0"; Method := "state_getMetadata";
                    Params := [] |} in
      r <- makeRPCCall c req ;;
      match r with
      | Err err => fetchMetadata_loop c n' (i + 1) (Some err)
      | Ok resp =>
          match Unmarshal_string (Result resp) with
          | Err err =>
              fetchMetadata_loop c n' (i + 1)
                (Some (Errorf_w "failed to unmarshal metadata: " (Some err)))
          | Ok metadataHex =>
              if negb (HasPrefix metadataHex "0x")
              then fetchMetadata_loop c n' (i + 1)
                     (Some (errorString "invalid metadata format: missing 0x prefix"))
              else ret (Ok metadataHex)
          end
      end
  end.

Definition fetchMetadata (c : CBCInitializer) : M (result string) :=
  fetchMetadata_loop c (Z.to_nat (retries c)) 0 None.

Fixpoint fetchRuntimeVersion_loop (c : CBCInitializer) (n : nat) (i : Z)
  (lastErr : option error) : M (result RuntimeVersion) :=
  match n with
  | O => ret (Err (Errorf_w ("failed after " ++ fmt_d (retries c) ++ " retries: ") lastErr))
  | S n' =>
      (if (0 <? i)%Z
       then log Warning ("Retry " ++ fmt_d i ++ "/" ++ fmt_d (retries c)
                         ++ ": Fetching runtime version...") ;;
            Sleep (retryWait c)
       else ret tt) ;;
      let req := {| ID := 1; JSONRPC := "2.0"; Method := "state_getRuntimeVersion";
                    Params := [] |} in
      r <- makeRPCCall c req ;;
      match r with
      | Err err => fetchRuntimeVersion_loop c n' (i + 1) (Some err)
      | Ok resp =>
          match Unmarshal_RuntimeVersion (Result resp) with
          | Err err =>
              fetchRuntimeVersion_loop c n' (i + 1)
                (Some (Errorf_w "failed to unmarshal runtime version: " (Some err)))
          | Ok version => ret (Ok version)
          end
      end
  end.

Definition fetchRuntimeVersion (c : CBCInitializer) : M (result RuntimeVersion) :=
  fetchRuntimeVersion_loop c (Z.to_nat (retries c)) 0 None.

Definition insertRuntimeVersion (c : CBCInitializer) (version : RuntimeVersion)
  (metadataHex : string) : M (option error) :=
  log Info ("Inserting runtime version " ++ fmt_d (SpecVersion version)
            ++ " into database...") ;;
  let modules :=
    "System|Timestamp|Balances|TransactionPayment|Sudo|PalletCbcPoi|PalletCbcPos|Dcf" in
  let createAndVerify : M (option error) :=
    created <- dao_CreateRuntimeVersion (SpecName version) (SpecVersion version) 0 ;;
    log Info ("CreateRuntimeVersion returned: " ++ fmt_d created) ;;
    affected <- dao_SetRuntimeData (SpecVersion version) modules metadataHex ;;
    log Info ("SetRuntimeData affected " ++ fmt_d affected ++ " rows") ;;
    recent <- dao_RuntimeVersionRecent ;;
    match recent with
    | None =>
        ret (Some (errorString
          "failed to verify runtime data after insert - metadata not found in database"))
    | Some r =>
        if negb (RecSpecVersion r =? SpecVersion version)%Z
           || (length (RawData r) <? 100)%nat
        then ret (Some (errorString
          "failed to verify runtime data after insert - metadata not found in database"))
        else
          log Info ("Runtime version " ++ fmt_d (SpecVersion version)
                    ++ " inserted/updated successfully with "
                    ++ fmt_d (Z.of_nat (length (RawData r)))
                    ++ " bytes of metadata") ;;
          ret None
    end in
  recent <- dao_RuntimeVersionRecent ;;
  match recent with
  | None => createAndVerify
  | Some r =>
      if (RecSpecVersion r =? SpecVersion version)%Z
         && (100 <? length (RawData r))%nat
      then
        log Info ("Runtime version " ++ fmt_d (SpecVersion version)
                  ++ " already exists with "
                  ++ fmt_d (Z.of_nat (length (RawData r)))
                  ++ " bytes of metadata - skipping insert") ;;
        ret None
      else createAndVerify
  end.

Definition Initialize (c : CBCInitializer) : M (option error) :=
  log Info "Starting CBC Chain initialization..." ;;
  recent <- dao_RuntimeVersionRecent ;;
  let bootstrap : M (option error) :=
    log Info "Runtime versions table is empty or incomplete, bootstrapping..." ;;
    rv <- fetchRuntimeVersion c ;;
    match rv with
    | Err err => ret (Some (Errorf_w "failed to fetch runtime version: " (Some err)))
    | Ok runtimeVersion =>
        log Info ("Fetched runtime version: " ++ SpecName runtimeVersion ++ " v"
                  ++ fmt_d (SpecVersion runtimeVersion)) ;;
        mh <- fetchMetadata c ;;
        match mh with
        | Err err => ret (Some (Errorf_w "failed to fetch metadata: " (Some err)))
        | Ok metadataHex =>
            log Info ("Fetched metadata: " ++ fmt_d (Z.of_nat (length metadataHex))
                      ++ " bytes") ;;
            ins <- insertRuntimeVersion c runtimeVersion metadataHex ;;
            match ins with
            | Some err =>
                ret (Some (Errorf_w "failed to insert runtime version: " (Some err)))
            | None =>
                Latest (SpecVersion runtimeVersion) metadataHex ;;
                log Info "CBC Chain initialization completed successfully" ;;
                ret None
            end
        end
    end in
  match recent with
  | None => bootstrap
  | Some r =>
      if HasPrefix (RawData r) "0x"
      then
        log Info ("Runtime version already exists (spec: "
                  ++ fmt_d (RecSpecVersion r) ++ "), skipping bootstrap") ;;
        ret None
      else bootstrap
  end.

Definition VerifyDCFFinality (c : CBCInitializer) : M (option error) :=
  log Info "Verifying DCF finality integration..." ;;
  let req := {| ID := 1; JSONRPC := "2.0"; Method := "chain_getFinalizedHead";
                Params := [] |} in
  r <- makeRPCCall c req ;;
  match r with
  | Err err => ret (Some (Errorf_w "failed to get finalized head: " (Some err)))
  | Ok resp =>
      match Unmarshal_string (Result resp) with
      | Err err =>
          ret (Some (Errorf_w "failed to unmarshal finalized hash: " (Some err)))
      | Ok finalizedHash =>
          let req := {| ID := 2; JSONRPC := "2.0"; Method := "chain_getBlock";
                        Params := [finalizedHash] |} in
          r <- makeRPCCall c req ;;
          match r with
          | Err err =>
              ret (Some (Errorf_w "failed to get finalized block: " (Some err)))
          | Ok resp =>
              match Unmarshal_map (Result resp) with
              | Some err =>
                  ret (Some (Errorf_w "failed to unmarshal block data: " (Some err)))
              | None =>
                  log Info ("Finalized block hash: " ++ finalizedHash) ;;
                  (if String.eqb finalizedHash "0x"
                      || HasSuffix finalizedHash genesisSuffix
                   then
                     log Warning "WARNING: Finalized head appears to be genesis block - DCF finality may not be syncing properly" ;;
                     log Warning "This is expected if the chain just started. If blocks are being produced but not finalized, check the finality sync task in cbc-node/src/service.rs"
                   else log Info "DCF finality verification passed") ;;
                  ret None
              end
          end
      end
  end.

(** [initCBCChain]; the globals [util.NetworkNode] and [util.WSEndPoint]
    are its arguments. *)
Definition initCBCChain (NetworkNode WSEndPoint : string) : M (option error) :=
  log Info "Initializing CBC Chain specific components..." ;;
  let networkName := ToLower NetworkNode in
  if negb (String.eqb networkName "cbc")
     && negb (String.eqb networkName "cbc-chain")
     && negb (Contains networkName "cbc")
  then
    log Info ("Not a CBC Chain network (network: " ++ NetworkNode
              ++ "), skipping CBC initialization") ;;
    ret (Some (errorString "not a CBC network"))
  else
    log Info ("Detected CBC Chain network: " ++ NetworkNode) ;;
    let cbcInit := NewCBCInitializer WSEndPoint in
    e <- Initialize cbcInit ;;
    match e with
    | Some err => ret (Some (Errorf_w "CBC initialization failed: " (Some err)))
    | None =>
        v <- VerifyDCFFinality cbcInit ;;
        match v with
        | Some err =>
            log Warning ("DCF finality verification warning: " ++ Error err)
        | None => ret tt
        end ;;
        log Info "CBC Chain initialization completed successfully" ;;
        ret None
    end.

(** The two continuations of [New]; their bodies lie outside this
    development. *)
Inductive RuntimeInit :=
| initSubRuntimeLatest                (* the standard initialization *)
| initSubRuntimeLatestWithoutFetch.   (* only loads what CBC stored *)

(** The dispatch of [New] on the outcome of [initCBCChain]. *)
Definition New (NetworkNode WSEndPoint : string) : M RuntimeInit :=
  e <- initCBCChain NetworkNode WSEndPoint ;;
  match e with
  | Some err =>
      log Warning ("CBC initialization warning: " ++ Error err) ;;
      ret initSubRuntimeLatest
  | None => ret initSubRuntimeLatestWithoutFetch
  end.

End Code.

Arguments M Store A : clear implicits.

(* ------------------------------------------------------------------ *)
(** ** Vocabulary of the statements *)

Definition metadataReq : RPCRequest :=
  {| ID := 1; JSONRPC := "2.0"; Method := "state_getMetadata"; Params := [] |}.

Definition versionReq : RPCRequest :=
  {| ID := 1; JSONRPC := "2.0"; Method := "state_getRuntimeVersion"; Params := [] |}.

Definition headReq : RPCRequest :=
  {| ID := 1; JSONRPC := "2.0"; Method := "chain_getFinalizedHead"; Params := [] |}.

Definition blockReq (finalizedHash : string) : RPCRequest :=
  {| ID := 2; JSONRPC := "2.0"; Method := "chain_getBlock";
     Params := [finalizedHash] |}.

(** What one iteration of [fetchMetadata] makes of an exchange. *)
Definition metadataOf {json : Unmarshaler} (x : Exchange) : result string :=
  match rpcResult x with
  | Err err => Err err
  | Ok resp =>
      match Unmarshal_string (Result resp) with
      | Err err => Err (Errorf_w "failed to unmarshal metadata: " (Some err))
      | Ok metadataHex =>
          if HasPrefix metadataHex "0x" then Ok metadataHex
          else Err (errorString "invalid metadata format: missing 0x prefix")
      end
  end.

(** What one iteration of [fetchRuntimeVersion] makes of an exchange. *)
Definition versionOf {json : Unmarshaler} (x : Exchange) : result RuntimeVersion :=
  match rpcResult x with
  | Err err => Err err
  | Ok resp =>
      match Unmarshal_RuntimeVersion (Result resp) with
      | Err err => Err (Errorf_w "failed to unmarshal runtime version: " (Some err))
      | Ok version => Ok version
      end
  end.

(** The events an iteration with counter [i] emits before its call. *)
Definition retryEvents (c : CBCInitializer) (i : Z) (what : string) : list Event :=
  if (0 <? i)%Z
  then [EvLog Warning ("Retry " ++ fmt_d i ++ "/" ++ fmt_d (retries c)
                       ++ ": Fetching " ++ what ++ "...");
        EvSleep (retryWait c)]
  else [].

(** The [count] invocations from the [from]-th on all fail at [outcome]. *)
Definition all_fail {A} (node : Node) (outcome : Exchange -> result A)
  (url : string) (req : RPCRequest) (from count : nat) : Prop :=
  forall k, (k < count)%nat -> exists e, outcome (node (k + from)%nat url req) = Err e.

(** What a world can have become after a sequence of reads, logs, sleeps
    and at most [n] RPC invocations: nothing was written. *)
Definition fetched {Store} (n : nat) (w w' : World Store) : Prop :=
  exists k evs, w' = advance w k evs /\ (k <= n)%nat /\ ((0 < n)%nat -> (0 < k)%nat)
                /\ filter is_write evs = [].

(** The spec's validity of a stored record (its section 3): the raw
    metadata is non-empty, begins with "0x" and is longer than 100. *)
Definition valid_record (r : RuntimeVersionRecord) : Prop :=
  RawData r <> "" /\ HasPrefix (RawData r) "0x" = true
  /\ (100 < length (RawData r))%nat.

(** The test with which [Initialize] decides to skip the bootstrap. *)
Definition usable (recent : option RuntimeVersionRecord) : Prop :=
  exists r, recent = Some r /\ HasPrefix (RawData r) "0x" = true.

(** The error of the check after the insert. *)
Definition verificationError : error :=
  errorString
    "failed to verify runtime data after insert - metadata not found in database".

Definition CBCModules : string :=
  "System|Timestamp|Balances|TransactionPayment|Sudo|PalletCbcPoi|PalletCbcPos|Dcf".

(** Case-insensitive containment, in the spec's words: some part of
    [name] equals [target] up to the case of its letters. *)
Definition contains_fold (name target : string) : Prop :=
  exists pre mid post,
    name = pre ++ mid ++ post /\ ToLower mid = ToLower target.

(** [n] copies of a byte. *)
Fixpoint replicate (n : nat) (a : ascii) : string :=
  match n with
  | O => EmptyString
  | S n' => String a (replicate n' a)
  end.

Definition is_hex_digit (a : ascii) : bool :=
  let n := nat_of_ascii a in
  ((48 <=? n) && (n <=? 57) || (97 <=? n) && (n <=? 102)
   || (65 <=? n) && (n <=? 70))%nat.

Fixpoint all_hex (s : string) : bool :=
  match s with
  | EmptyString => true
  | String a s' => is_hex_digit a && all_hex s'
  end.

(** A well-formed block hash: "0x" and 64 hexadecimal digits. *)
Definition well_formed_hash (h : string) : bool :=
  HasPrefix h "0x" && (length h =? 66)%nat && all_hex (slice_from h 2).

(** The all-zero hash. *)
Definition zero_hash : string := "0x" ++ replicate 64 "0".

Definition finalityWarnings : list Event :=
  [EvLog Warning "WARNING: Finalized head appears to be genesis block - DCF finality may not be syncing properly";
   EvLog Warning "This is expected if the chain just started. If blocks are being produced but not finalized, check the finality sync task in cbc-node/src/service.rs"].

Definition finalityPassed : list Event :=
  [EvLog Info "DCF finality verification passed"].

(* ------------------------------------------------------------------ *)
(** ** Test doubles *)

Module Doubles.

(** A store that keeps the most recent record and upserts by spec
    version. *)
Definition memDao : IDao (option RuntimeVersionRecord) :=
  {| RuntimeVersionRecent := fun s => s;
     CreateRuntimeVersion := fun name specVersion blockNum s =>
       match s with
       | Some r =>
           if (RecSpecVersion r =? specVersion)%Z then (0%Z, s)
           else (1%Z, Some {| RecName := name; RecSpecVersion := specVersion;
                              RecBlockNum := blockNum; RawData := "" |})
       | None => (1%Z, Some {| RecName := name; RecSpecVersion := specVersion;
                               RecBlockNum := blockNum; RawData := "" |})
       end;
     SetRuntimeData := fun specVersion modules raw s =>
       match s with
       | Some r =>
           if (RecSpecVersion r =? specVersion)%Z
           then (1%Z, Some {| RecName := RecName r; RecSpecVersion := specVersion;
                              RecBlockNum := RecBlockNum r; RawData := raw |})
           else (0%Z, s)
       | None => (0%Z, s)
       end |}.

(** A store that silently drops every write. *)
Definition dropDao : IDao (option RuntimeVersionRecord) :=
  {| RuntimeVersionRecent := fun s => s;
     CreateRuntimeVersion := fun _ _ _ s => (0%Z, s);
     SetRuntimeData := fun _ _ _ s => (0%Z, s) |}.

Definition quote : ascii := ascii_of_nat 34.

(** [s] without its last byte. *)
Fixpoint chop (s : string) : string :=
  match s with
  | EmptyString => EmptyString
  | String a EmptyString => EmptyString
  | String a s' => String a (chop s')
  end.

Definition sampleVersion : RuntimeVersion :=
  {| SpecName := "cbc-chain"; ImplName := "cbc-node"; AuthoringVersion := 1;
     SpecVersion := 100; ImplVersion := 1; Apis := [];
     TransactionVersion := 1; StateVersion := 1 |}.

(** A decoder for the payloads the doubles below send: a quoted string
    decodes to its content, an object to [sampleVersion] or to a map. *)
Definition toyJSON : Unmarshaler :=
  {| Unmarshal_string := fun raw =>
       match raw with
       | String a body =>
           if Ascii.eqb a quote then Ok (chop body)
           else Err (errorString "json: cannot unmarshal into Go value of type string")
       | EmptyString => Err (errorString "unexpected end of JSON input")
       end;
     Unmarshal_RuntimeVersion := fun raw =>
       if HasPrefix raw "{" then Ok sampleVersion
       else Err (errorString "json: cannot unmarshal into Go value of type cbc.RuntimeVersion");
     Unmarshal_map := fun raw =>
       if HasPrefix raw "{" then None
       else Some (errorString "json: cannot unmarshal into Go value of type map[string]interface {}") |}.

Definition quoted (s : string) : RawMessage :=
  String quote (s ++ String quote EmptyString).

Definition envelope (id : Z) (payload : RawMessage) : Exchange :=
  Reply 200 (Envelope {| RespID := id; RespJSONRPC := "2.0";
                         Result := payload; RespError := None |}).

Definition sampleMetadata : string := "0x" ++ replicate 120 "a".

(** A node that answers every method; its finalized head is [head] and
    its metadata is [meta]. *)
Definition liveNode (meta head : string) : Node := fun _ _ req =>
  if String.eqb (Method req) "state_getRuntimeVersion" then envelope (ID req) "{}"
  else if String.eqb (Method req) "state_getMetadata" then envelope (ID req) (quoted meta)
  else if String.eqb (Method req) "chain_getFinalizedHead" then envelope (ID req) (quoted head)
  else envelope (ID req) "{}".

(** A live node whose first answer is a string without the prefix. *)
Definition unprefixedFirst (meta head : string) : Node := fun n url req =>
  if (n <? 1)%nat then envelope (ID req) (quoted "deadbeef")
  else liveNode meta head n url req.

(** A node that cannot be reached. *)
Definition deadNode : Node := fun _ _ _ =>
  DoError (errorString "dial tcp: connection refused").

(** A node whose first [k] answers are refused and which is live
    afterwards. *)
Definition lateNode (k : nat) (meta head : string) : Node := fun n url req =>
  if (n <? k)%nat then DoError (errorString "dial tcp: connection refused")
  else liveNode meta head n url req.

(** A node that answers the version and is unreachable afterwards. *)
Definition versionOnlyNode : Node := fun n url req =>
  if (n <? 1)%nat then envelope (ID req) "{}"
  else DoError (errorString "dial tcp: connection refused").

Definition emptyWorld : World (option RuntimeVersionRecord) :=
  {| store := None; rpcCalls := O; trace := [] |}.

Definition worldWith (r : RuntimeVersionRecord) : World (option RuntimeVersionRecord) :=
  {| store := Some r; rpcCalls := O; trace := [] |}.

Definition record (raw : string) : RuntimeVersionRecord :=
  {| RecName := "cbc-chain"; RecSpecVersion := 100; RecBlockNum := 0;
     RawData := raw |}.

(** The initializer of the tests. *)
Definition sampleInit : CBCInitializer := NewCBCInitializer "ws://172.17.0.1:9933".

(** A hash that is not the all-zero one and ends with 60 zero digits. *)
Definition oddHash : string := "0x1234" ++ replicate 60 "0".

End Doubles.

(* ------------------------------------------------------------------ *)
(** ** The package constants and the runtime configuration *)

Definition CBCChainName : string := "cbc-chain".

Definition DefaultSpecVersion : Z := 100.

Definition CBCPalletNames : list string :=
  ["PalletCbcPoi"; "PalletCbcPos"; "Dcf"].

(** The [range] loop of [IsCBCPallet] over the names that remain. *)
Fixpoint IsCBCPallet_range (names : list string) (palletName : string) : bool :=
  match names with
  | [] => false
  | name :: names' =>
      if String.eqb name palletName then true
      else IsCBCPallet_range names' palletName
  end.

Definition IsCBCPallet (palletName : string) : bool :=
  IsCBCPallet_range CBCPalletNames palletName.

Record CBCRuntimeConfig := {
  ChainName : string;
  ConfigSpecVersion : Z;
  EnableDCFFinality : bool;
  BootstrapOnEmpty : bool;
  HTTPEndpoint : string;
  WSEndpoint : string
}.

Definition DefaultCBCConfig (wsEndpoint : string) : CBCRuntimeConfig :=
  {| ChainName := CBCChainName;
     ConfigSpecVersion := DefaultSpecVersion;
     EnableDCFFinality := true;
     BootstrapOnEmpty := true;
     HTTPEndpoint := convertWSToHTTP wsEndpoint;
     WSEndpoint := wsEndpoint |}.

(* ------------------------------------------------------------------ *)
(** ** Further vocabulary *)

Definition is_sleep (ev : Event) : bool :=
  match ev with EvSleep _ => true | _ => false end.

Definition is_latest (ev : Event) : bool :=
  match ev with EvLatest _ _ => true | _ => false end.

(** [w'] is [w] after [calls] RPC invocations and the events [evs], with
    whatever store. *)
Definition grows {Store} (w w' : World Store) (calls : nat) (evs : list Event)
  : Prop :=
  rpcCalls w' = (calls + rpcCalls w)%nat /\ trace w' = (trace w ++ evs)%list.

(** The events of a fetch loop that sends [req]: log lines, sleeps of the
    configured wait and invocations of [req] at the HTTP URL. *)
Definition fetch_event (c : CBCInitializer) (req : RPCRequest) (ev : Event) : Prop :=
  match ev with
  | EvLog _ _ => True
  | EvSleep d => d = retryWait c
  | EvRPC url r => url = httpURL c /\ r = req
  | _ => False
  end.

(** The events [Initialize] can emit when it returns [r]. *)
Definition initialize_event (c : CBCInitializer) (r : option error) (ev : Event)
  : Prop :=
  match ev with
  | EvLog _ _ => True
  | EvSleep d => d = retryWait c
  | EvRPC url req => url = httpURL c /\ (req = versionReq \/ req = metadataReq)
  | EvCreateRuntimeVersion _ _ blockNum => blockNum = 0%Z
  | EvSetRuntimeData _ modules raw => modules = CBCModules /\ HasPrefix raw "0x" = true
  | EvLatest _ raw => r = None /\ HasPrefix raw "0x" = true
  end.

(** A store on which a record that was created and given its data is the
    one read back. *)
Definition read_after_write {Store} (dao : IDao Store) : Prop :=
  forall s name specVersion blockNum modules raw,
    exists r,
      RuntimeVersionRecent
        (snd (SetRuntimeData specVersion modules raw
                (snd (CreateRuntimeVersion name specVersion blockNum s))))
      = Some r
      /\ RecSpecVersion r = specVersion /\ RawData r = raw.

(** The name contains "cbc" whatever the case of each of its three
    letters, said letter by letter. *)
Definition cbc_any_case (name : string) : Prop :=
  exists pre x y z post,
    name = pre ++ String x (String y (String z post))
    /\ (x = "c"%char \/ x = "C"%char)
    /\ (y = "b"%char \/ y = "B"%char)
    /\ (z = "c"%char \/ z = "C"%char).

(** The first two events of [Initialize] when it bootstraps. *)
Definition bootstrapStart : list Event :=
  [EvLog Info "Starting CBC Chain initialization...";
   EvLog Info "Runtime versions table is empty or incomplete, bootstrapping..."].

Definition fetchedVersion (v : RuntimeVersion) : list Event :=
  [EvLog Info ("Fetched runtime version: " ++ SpecName v ++ " v"
               ++ fmt_d (SpecVersion v))].

(** The record found before the insert makes it skip the writes. *)
Definition already_stored {Store} {dao : IDao Store} (v : RuntimeVersion)
  (w : World Store) : Prop :=
  exists r, RuntimeVersionRecent (store w) = Some r
            /\ RecSpecVersion r = SpecVersion v
            /\ (100 < length (RawData r))%nat.

(** The events of [insertRuntimeVersion] when the fetched metadata is
    [metadataHex]. *)
Definition insert_event (metadataHex : string) (ev : Event) : Prop :=
  match ev with
  | EvLog _ _ => True
  | EvCreateRuntimeVersion _ _ blockNum => blockNum = 0%Z
  | EvSetRuntimeData _ modules raw => modules = CBCModules /\ raw = metadataHex
  | _ => False
  end.

(** The events of [VerifyDCFFinality]: log lines and its two requests at
    the HTTP URL. *)
Definition finality_event (c : CBCInitializer) (ev : Event) : Prop :=
  match ev with
  | EvLog _ _ => True
  | EvRPC url req =>
      url = httpURL c /\ (req = headReq \/ exists h, req = blockReq h)
  | _ => False
  end.

(* ------------------------------------------------------------------ *)
(** ** Further test doubles *)

Module MoreDoubles.

(** An initializer without any retry budget. *)
Definition noBudget : CBCInitializer :=
  {| nodeURL := "ws://172.17.0.1:9933";
     httpURL := "http://172.17.0.1:9933";
     retries := 0;
     retryWait := 2 * Second |}.

(** Metadata with the prefix and fewer than 100 bytes. *)
Definition shortMetadata : string := "0x12".

(** A stored record of spec version 100 whose 120 bytes lack the prefix. *)
Definition unprefixedRecord : RuntimeVersionRecord :=
  Doubles.record (replicate 120 "a").

End MoreDoubles.

(* ------------------------------------------------------------------ *)
(** ** Facts about the string functions *)

Section StringFacts.

Lemma HasPrefix_nil (s : string) : HasPrefix s "" = true.
Proof. reflexivity. Qed.

Lemma HasPrefix_cons (a b : ascii) (s p : string) :
  HasPrefix (String a s) (String b p) = Ascii.eqb a b && HasPrefix s p.
Proof.
  unfold HasPrefix; cbn [length slice_to String.eqb].
  change (S (length p) <=? S (length s))%nat with (length p <=? length s)%nat.
  destruct (Ascii.eqb a b), (length p <=? length s)%nat; reflexivity.
Qed.

Lemma HasPrefix_empty (b : ascii) (p : string) :
  HasPrefix "" (String b p) = false.
Proof. reflexivity. Qed.

Lemma HasPrefix_app (p r : string) : HasPrefix (p ++ r) p = true.
Proof.
  induction p as [|a p IH]; [reflexivity|].
  cbn [append]. now rewrite HasPrefix_cons, Ascii.eqb_refl, IH.
Qed.

Lemma HasPrefix_split (s p : string) :
  HasPrefix s p = true -> s = p ++ slice_from s (length p).
Proof.
  revert s; induction p as [|b p IH]; intros s H; [reflexivity|].
  destruct s as [|a s]; [discriminate|].
  rewrite HasPrefix_cons in H. apply andb_prop in H as [Hab Hp].
  apply Ascii.eqb_eq in Hab; subst b.
  cbn [append length slice_from]. f_equal. now apply IH.
Qed.

Lemma HasPrefix_iff (s p : string) :
  HasPrefix s p = true <-> exists r, s = p ++ r.
Proof.
  split.
  - intros H; eexists; now apply HasPrefix_split.
  - intros [r ->]; apply HasPrefix_app.
Qed.

Lemma Index_unfold (a : ascii) (s p : string) :
  Index (String a s) p =
  if HasPrefix (String a s) p then Some O else option_map S (Index s p).
Proof. reflexivity. Qed.

Lemma slice_from_app (p r : string) : slice_from (p ++ r) (length p) = r.
Proof. induction p; [now destruct r | assumption]. Qed.

Lemma Contains_false (s p : string) :
  Contains s p = false <-> Index s p = None.
Proof. unfold Contains; destruct (Index s p); split; congruence. Qed.

End StringFacts.



(* ------------------------------------------------------------------ *)
(** ** Suffixes, containment and case *)

Section MoreStringFacts.

Lemma length_app (s t : string) : length (s ++ t) = (length s + length t)%nat.
Proof. induction s as [|a s IH]; [reflexivity|]. cbn. now rewrite IH. Qed.

Lemma string_app_assoc (s t u : string) : (s ++ t) ++ u = s ++ t ++ u.
Proof. induction s as [|a s IH]; [reflexivity|]. cbn. now rewrite IH. Qed.

Lemma slice_split (s : string) (n : nat) : s = slice_to s n ++ slice_from s n.
Proof.
  revert s; induction n as [|n IH]; intros s; [reflexivity|].
  destruct s as [|a s]; [reflexivity|]. cbn. now rewrite <- IH.
Qed.

Lemma HasSuffix_iff (s suffix : string) :
  HasSuffix s suffix = true <-> exists p, s = p ++ suffix.
Proof.
  unfold HasSuffix. split.
  - intros H. apply andb_prop in H as [_ H]. apply String.eqb_eq in H.
    exists (slice_to s (length s - length suffix)).
    pose proof (slice_split s (length s - length suffix)) as Hs.
    now rewrite H in Hs.
  - intros [p ->]. rewrite length_app.
    replace (length p + length suffix - length suffix)%nat with (length p) by lia.
    rewrite slice_from_app, String.eqb_refl, andb_true_r.
    apply Nat.leb_le; lia.
Qed.

Lemma Index_prefix (s p : string) : HasPrefix s p = true -> Index s p = Some O.
Proof. intros H. destruct s; cbn [Index]; now rewrite H. Qed.

Lemma Contains_app (a p b : string) : Contains (a ++ p ++ b) p = true.
Proof.
  unfold Contains. induction a as [|x a IH].
  - cbn [append]. now rewrite Index_prefix by apply HasPrefix_app.
  - cbn [append]. rewrite Index_unfold.
    destruct (HasPrefix _ p); [reflexivity|].
    now destruct (Index (a ++ p ++ b) p).
Qed.

Lemma Contains_split (s p : string) :
  Contains s p = true -> exists a b, s = a ++ p ++ b.
Proof.
  unfold Contains. induction s as [|x s IH]; cbn [Index].
  - destruct (HasPrefix "" p) eqn:E; [|discriminate].
    intros _. exists "". apply HasPrefix_iff in E. exact E.
  - destruct (HasPrefix (String x s) p) eqn:E.
    + intros _. exists "". apply HasPrefix_iff in E. exact E.
    + destruct (Index s p); [|discriminate]. intros _.
      destruct (IH eq_refl) as (a & b & ->). now exists (String x a), b.
Qed.

Lemma Contains_iff (s p : string) :
  Contains s p = true <-> exists a b, s = a ++ p ++ b.
Proof.
  split; [apply Contains_split|]. intros (a & b & ->). apply Contains_app.
Qed.

Lemma ToLower_app (s t : string) : ToLower (s ++ t) = ToLower s ++ ToLower t.
Proof. induction s as [|a s IH]; [reflexivity|]. cbn. now rewrite IH. Qed.

Lemma ToLower_split (s a b : string) :
  ToLower s = a ++ b ->
  exists s1 s2, s = s1 ++ s2 /\ ToLower s1 = a /\ ToLower s2 = b.
Proof.
  revert s; induction a as [|x a IH]; intros s H.
  - now exists "", s.
  - destruct s as [|y s]; [discriminate|].
    cbn in H. injection H as Hx H.
    destruct (IH s H) as (s1 & s2 & -> & H1 & H2).
    exists (String y s1), s2. cbn. now rewrite Hx, H1.
Qed.

(** What the code computes is case-insensitive containment. *)
Lemma Contains_ToLower_fold (name target : string) :
  Contains (ToLower name) (ToLower target) = true <-> contains_fold name target.
Proof.
  unfold contains_fold. rewrite Contains_iff. split.
  - intros (a & b & H).
    apply ToLower_split in H as (pre & rest & -> & Hpre & H).
    apply ToLower_split in H as (mid & post & -> & Hmid & Hpost).
    now exists pre, mid, post.
  - intros (pre & mid & post & -> & Hmid).
    exists (ToLower pre), (ToLower post).
    now rewrite !ToLower_app, Hmid.
Qed.

(** The two equality tests of [initCBCChain] add nothing to its
    containment test. *)
Lemma not_cbc_test (networkName : string) :
  negb (String.eqb networkName "cbc")
  && negb (String.eqb networkName "cbc-chain")
  && negb (Contains networkName "cbc")
  = negb (Contains networkName "cbc").
Proof.
  destruct (Contains networkName "cbc") eqn:E; [now rewrite andb_false_r|].
  rewrite andb_true_r.
  destruct (String.eqb_spec networkName "cbc") as [->|_]; [discriminate E|].
  destruct (String.eqb_spec networkName "cbc-chain") as [->|_]; [discriminate E|].
  reflexivity.
Qed.

End MoreStringFacts.

(* ------------------------------------------------------------------ *)
(** ** The case of letters *)

(** [lower] on each of the 256 bytes. *)
Ltac each_byte a :=
  destruct a as [[] [] [] [] [] [] [] []].

Lemma lower_capitals :
  ToLower "ABCDEFGHIJKLMNOPQRSTUVWXYZ" = "abcdefghijklmnopqrstuvwxyz".
Proof. reflexivity. Qed.

Lemma lower_small_letters :
  ToLower "abcdefghijklmnopqrstuvwxyz0123456789-_.:/@[`{"
  = "abcdefghijklmnopqrstuvwxyz0123456789-_.:/@[`{".
Proof. reflexivity. Qed.

Lemma lower_c (a : ascii) : lower a = "c"%char <-> a = "c"%char \/ a = "C"%char.
Proof.
  split.
  - each_byte a; intros H; try discriminate H; auto.
  - intros [-> | ->]; reflexivity.
Qed.

Lemma lower_b (a : ascii) : lower a = "b"%char <-> a = "b"%char \/ a = "B"%char.
Proof.
  split.
  - each_byte a; intros H; try discriminate H; auto.
  - intros [-> | ->]; reflexivity.
Qed.

Lemma ToLower_cbc (mid : string) :
  ToLower mid = "cbc"
  <-> exists x y z,
        mid = String x (String y (String z EmptyString))
        /\ (x = "c"%char \/ x = "C"%char)
        /\ (y = "b"%char \/ y = "B"%char)
        /\ (z = "c"%char \/ z = "C"%char).
Proof.
  split.
  - destruct mid as [|x [|y [|z [|t mid]]]]; try discriminate.
    cbn [ToLower]. intros [= Hx Hy Hz].
    exists x, y, z. split; [reflexivity|].
    split; [now apply lower_c|]. split; [now apply lower_b | now apply lower_c].
  - intros (x & y & z & -> & Hx & Hy & Hz). cbn [ToLower].
    apply lower_c in Hx, Hz. apply lower_b in Hy. now rewrite Hx, Hy, Hz.
Qed.

(** The test of [initCBCChain] holds exactly of the names that contain
    "cbc" in any case of its letters. *)
Lemma Contains_ToLower_cbc (name : string) :
  Contains (ToLower name) "cbc" = true <-> cbc_any_case name.
Proof.
  rewrite (Contains_ToLower_fold name "cbc"). unfold contains_fold, cbc_any_case.
  change (ToLower "cbc") with "cbc". split.
  - intros (pre & mid & post & -> & Hmid).
    apply ToLower_cbc in Hmid as (x & y & z & -> & Hx & Hy & Hz).
    now exists pre, x, y, z, post.
  - intros (pre & x & y & z & post & -> & Hx & Hy & Hz).
    exists pre, (String x (String y (String z EmptyString))), post.
    split; [reflexivity|]. apply ToLower_cbc. now exists x, y, z.
Qed.

(* ------------------------------------------------------------------ *)
(** ** Endpoint translation *)

Section Endpoints.

Variable rest : string.
Hypothesis no_ws : Contains rest "ws://" = false.
Hypothesis no_wss : Contains rest "wss://" = false.












End Endpoints.



Lemma convertWSToHTTP_http (rest : string) :
  convertWSToHTTP ("http://" ++ rest) = "http://" ++ rest.
Proof. reflexivity. Qed.

Lemma convertWSToHTTP_https (rest : string) :
  convertWSToHTTP ("https://" ++ rest) = "https://" ++ rest.
Proof. reflexivity. Qed.











(* ------------------------------------------------------------------ *)
(** ** Worlds *)

Section Worlds.

Context {Store : Type}.
Implicit Types (w : World Store) (evs : list Event).

Lemma advance_advance w a b evs evs' :
  advance (advance w a evs) b evs' = advance w (b + a) (evs ++ evs')%list.
Proof.
  unfold advance; cbn [store rpcCalls trace].
  now rewrite <- app_assoc, Nat.add_assoc.
Qed.

Lemma advance_0_nil w : advance w 0 [] = w.
Proof. destruct w; unfold advance; cbn. now rewrite app_nil_r. Qed.

Lemma setStore_advance w a evs (s : Store) :
  setStore (advance w a evs) s = advance (setStore w s) a evs.
Proof. reflexivity. Qed.

Lemma setStore_same w : setStore w (store w) = w.
Proof. now destruct w. Qed.

Lemma setStore_setStore w (s s' : Store) : setStore (setStore w s) s' = setStore w s'.
Proof. reflexivity. Qed.

Lemma store_setStore w (s : Store) : store (setStore w s) = s.
Proof. reflexivity. Qed.

Lemma rpcCalls_setStore w (s : Store) : rpcCalls (setStore w s) = rpcCalls w.
Proof. reflexivity. Qed.

Lemma trace_setStore w (s : Store) : trace (setStore w s) = trace w.
Proof. reflexivity. Qed.

Lemma store_advance w a evs : store (advance w a evs) = store w.
Proof. reflexivity. Qed.

Lemma rpcCalls_advance w a evs : rpcCalls (advance w a evs) = (a + rpcCalls w)%nat.
Proof. reflexivity. Qed.

Lemma trace_advance w a evs : trace (advance w a evs) = (trace w ++ evs)%list.
Proof. reflexivity. Qed.

End Worlds.

Global Opaque advance setStore.

Create Rewrite HintDb world.
#[global] Hint Rewrite @advance_advance @store_advance @rpcCalls_advance
  @trace_advance @setStore_advance @setStore_setStore @store_setStore
  @rpcCalls_setStore @trace_setStore : world.

(** Unfolds the monad and brings the resulting world to the form
    [advance w n evs]. *)
Ltac run :=
  unfold makeRPCCall, roundTrip, log, Sleep, Latest, emit,
    dao_RuntimeVersionRecent, bind, ret;
  cbv beta iota; autorewrite with world; cbn [Nat.add app].

(* ------------------------------------------------------------------ *)
(** ** The retry loops *)

Section Loops.

Context {Store : Type} {dao : IDao Store} {json : Unmarshaler}.
Variable node : Node.
Implicit Types (w : World Store) (c : CBCInitializer).

Lemma fetchMetadata_loop_S c n i last w :
  fetchMetadata_loop node c (S n) i last w =
  let w1 :=
    advance w 1 (retryEvents c i "metadata" ++ [EvRPC (httpURL c) metadataReq])%list in
  match metadataOf (node (rpcCalls w) (httpURL c) metadataReq) with
  | Err e => fetchMetadata_loop node c n (i + 1) (Some e) w1
  | Ok metadataHex => (Ok metadataHex, w1)
  end.
Proof.
  cbn [fetchMetadata_loop]; unfold retryEvents, metadataOf.
  fold metadataReq.
  destruct (0 <? i)%Z; run;
    (destruct (rpcResult _) as [resp|e]; [|reflexivity]);
    (destruct (Unmarshal_string _) as [hex|e]; [|reflexivity]);
    now destruct (HasPrefix hex "0x").
Qed.

Lemma fetchRuntimeVersion_loop_S c n i last w :
  fetchRuntimeVersion_loop node c (S n) i last w =
  let w1 :=
    advance w 1 (retryEvents c i "runtime version"
                 ++ [EvRPC (httpURL c) versionReq])%list in
  match versionOf (node (rpcCalls w) (httpURL c) versionReq) with
  | Err e => fetchRuntimeVersion_loop node c n (i + 1) (Some e) w1
  | Ok version => (Ok version, w1)
  end.
Proof.
  cbn [fetchRuntimeVersion_loop]; unfold retryEvents, versionOf.
  fold versionReq.
  destruct (0 <? i)%Z; run;
    (destruct (rpcResult _) as [resp|e]; [|reflexivity]);
    now destruct (Unmarshal_RuntimeVersion _) as [v|e].
Qed.

Lemma retryEvents_no_write c i what :
  filter is_write (retryEvents c i what) = [].
Proof. unfold retryEvents; now destruct (0 <? i)%Z. Qed.

Lemma fetched_step n w w1 w' evs :
  w1 = advance w 1 evs -> filter is_write evs = [] ->
  fetched n w1 w' -> fetched (S n) w w'.
Proof.
  intros -> Hevs (k & evs' & -> & Hk & _ & Hw).
  exists (k + 1)%nat, (evs ++ evs')%list. rewrite advance_advance.
  repeat split; try lia.
  now rewrite filter_app, Hevs, Hw.
Qed.

Lemma fetchMetadata_loop_fetched n : forall c i last w r w',
  fetchMetadata_loop node c n i last w = (r, w') -> fetched n w w'.
Proof.
  induction n as [|n IH]; intros c i last w r w' H.
  - cbn in H. injection H as _ <-. exists 0%nat, []. rewrite advance_0_nil.
    repeat split; lia.
  - rewrite fetchMetadata_loop_S in H. cbv zeta in H.
    destruct (metadataOf _) as [hex|e].
    + injection H as _ <-. eexists 1%nat, _. repeat split; try lia.
      now rewrite filter_app, retryEvents_no_write.
    + eapply fetched_step; [reflexivity | | eapply IH, H].
      now rewrite filter_app, retryEvents_no_write.
Qed.

Lemma fetchRuntimeVersion_loop_fetched n : forall c i last w r w',
  fetchRuntimeVersion_loop node c n i last w = (r, w') -> fetched n w w'.
Proof.
  induction n as [|n IH]; intros c i last w r w' H.
  - cbn in H. injection H as _ <-. exists 0%nat, []. rewrite advance_0_nil.
    repeat split; lia.
  - rewrite fetchRuntimeVersion_loop_S in H. cbv zeta in H.
    destruct (versionOf _) as [v|e].
    + injection H as _ <-. eexists 1%nat, _. repeat split; try lia.
      now rewrite filter_app, retryEvents_no_write.
    + eapply fetched_step; [reflexivity | | eapply IH, H].
      now rewrite filter_app, retryEvents_no_write.
Qed.

(** A successful [fetchMetadata] is the first attempt that does not
    fail. *)
Lemma fetchMetadata_loop_Ok n : forall c i last w hex w',
  fetchMetadata_loop node c n i last w = (Ok hex, w') ->
  exists j, (j < n)%nat
    /\ metadataOf (node (j + rpcCalls w)%nat (httpURL c) metadataReq) = Ok hex.
Proof.
  induction n as [|n IH]; intros c i last w hex w' H.
  - discriminate.
  - rewrite fetchMetadata_loop_S in H. cbv zeta in H.
    destruct (metadataOf _) as [hex0|e] eqn:E.
    + injection H as <- _. exists 0%nat. split; [lia | exact E].
    + apply IH in H as (j & Hj & Hm). exists (S j). split; [lia|].
      rewrite rpcCalls_advance in Hm.
      now replace (S j + rpcCalls w)%nat with (j + (1 + rpcCalls w))%nat by lia.
Qed.

Lemma metadataOf_prefixed (x : Exchange) (hex : string) :
  metadataOf x = Ok hex -> HasPrefix hex "0x" = true.
Proof.
  unfold metadataOf. destruct (rpcResult x) as [resp|e]; [|discriminate].
  destruct (Unmarshal_string _) as [h|e]; [|discriminate].
  destruct (HasPrefix h "0x") eqn:E; [|discriminate].
  now intros [= <-].
Qed.

End Loops.

(* ------------------------------------------------------------------ *)
(** ** Retry *)

Section Retry.

Context {Store : Type} {dao : IDao Store} {json : Unmarshaler}.
Variable node : Node.
Implicit Types (w : World Store) (c : CBCInitializer).

Lemma fetchMetadata_exhausted c w :
  retries c = 3%Z ->
  all_fail node metadataOf (httpURL c) metadataReq (rpcCalls w) 3 ->
  exists e,
    metadataOf (node (2 + rpcCalls w)%nat (httpURL c) metadataReq) = Err e
    /\ fetchMetadata node c w =
       (Err (wrapError ("failed after 3 retries: " ++ Error e) e),
        advance w 3
          [EvRPC (httpURL c) metadataReq;
           EvLog Warning "Retry 1/3: Fetching metadata...";
           EvSleep (retryWait c);
           EvRPC (httpURL c) metadataReq;
           EvLog Warning "Retry 2/3: Fetching metadata...";
           EvSleep (retryWait c);
           EvRPC (httpURL c) metadataReq]).
Proof.
  intros Hret H.
  destruct (H 0%nat) as [e0 H0]; [lia|].
  destruct (H 1%nat) as [e1 H1]; [lia|].
  destruct (H 2%nat) as [e2 H2]; [lia|].
  cbn [Nat.add] in H0, H1, H2.
  exists e2. split; [exact H2|].
  unfold fetchMetadata. rewrite Hret.
  change (Z.to_nat 3) with 3%nat.
  rewrite fetchMetadata_loop_S, H0; cbv zeta.
  rewrite fetchMetadata_loop_S, rpcCalls_advance; cbn [Nat.add]; rewrite H1; cbv zeta.
  rewrite fetchMetadata_loop_S, !rpcCalls_advance; cbn [Nat.add]; rewrite H2; cbv zeta.
  cbn [fetchMetadata_loop]; unfold ret.
  autorewrite with world. unfold retryEvents. rewrite Hret. reflexivity.
Qed.

Lemma fetchRuntimeVersion_exhausted c w :
  retries c = 3%Z ->
  all_fail node versionOf (httpURL c) versionReq (rpcCalls w) 3 ->
  exists e,
    versionOf (node (2 + rpcCalls w)%nat (httpURL c) versionReq) = Err e
    /\ fetchRuntimeVersion node c w =
       (Err (wrapError ("failed after 3 retries: " ++ Error e) e),
        advance w 3
          [EvRPC (httpURL c) versionReq;
           EvLog Warning "Retry 1/3: Fetching runtime version...";
           EvSleep (retryWait c);
           EvRPC (httpURL c) versionReq;
           EvLog Warning "Retry 2/3: Fetching runtime version...";
           EvSleep (retryWait c);
           EvRPC (httpURL c) versionReq]).
Proof.
  intros Hret H.
  destruct (H 0%nat) as [e0 H0]; [lia|].
  destruct (H 1%nat) as [e1 H1]; [lia|].
  destruct (H 2%nat) as [e2 H2]; [lia|].
  cbn [Nat.add] in H0, H1, H2.
  exists e2. split; [exact H2|].
  unfold fetchRuntimeVersion. rewrite Hret.
  change (Z.to_nat 3) with 3%nat.
  rewrite fetchRuntimeVersion_loop_S, H0; cbv zeta.
  rewrite fetchRuntimeVersion_loop_S, rpcCalls_advance; cbn [Nat.add]; rewrite H1; cbv zeta.
  rewrite fetchRuntimeVersion_loop_S, !rpcCalls_advance; cbn [Nat.add]; rewrite H2; cbv zeta.
  cbn [fetchRuntimeVersion_loop]; unfold ret.
  autorewrite with world. unfold retryEvents. rewrite Hret. reflexivity.
Qed.

(** The first two log lines of a bootstrapping [Initialize]. *)
Lemma Initialize_bootstrap c w :
  ~ usable (RuntimeVersionRecent (store w)) ->
  Initialize node c w =
  let w0 := advance w 0
    [EvLog Info "Starting CBC Chain initialization...";
     EvLog Info "Runtime versions table is empty or incomplete, bootstrapping..."] in
  let (rv, w1) := fetchRuntimeVersion node c w0 in
  match rv with
  | Err err => (Some (Errorf_w "failed to fetch runtime version: " (Some err)), w1)
  | Ok runtimeVersion =>
      let w1' := advance w1 0
        [EvLog Info ("Fetched runtime version: " ++ SpecName runtimeVersion ++ " v"
                     ++ fmt_d (SpecVersion runtimeVersion))] in
      let (mh, w2) := fetchMetadata node c w1' in
      match mh with
      | Err err => (Some (Errorf_w "failed to fetch metadata: " (Some err)), w2)
      | Ok metadataHex =>
          let w2' := advance w2 0
            [EvLog Info ("Fetched metadata: "
                         ++ fmt_d (Z.of_nat (length metadataHex)) ++ " bytes")] in
          let (ins, w3) := insertRuntimeVersion c runtimeVersion metadataHex w2' in
          match ins with
          | Some err =>
              (Some (Errorf_w "failed to insert runtime version: " (Some err)), w3)
          | None =>
              (None, advance w3 0
                 [EvLatest (SpecVersion runtimeVersion) metadataHex;
                  EvLog Info "CBC Chain initialization completed successfully"])
          end
      end
  end.
Proof.
  intros Hno. unfold Initialize, usable in *.
  assert (Hb : match RuntimeVersionRecent (store w) with
               | Some r => HasPrefix (RawData r) "0x"
               | None => false
               end = false).
  { destruct (RuntimeVersionRecent (store w)) as [r|]; [|reflexivity].
    destruct (HasPrefix (RawData r) "0x") eqn:E; [|reflexivity].
    exfalso; apply Hno; now exists r. }
  run.
  destruct (RuntimeVersionRecent (store w)) as [r|]; [rewrite Hb|];
    run;
    (destruct (fetchRuntimeVersion node c _) as [[v|e] w1]; [|reflexivity]);
    run;
    (destruct (fetchMetadata node c _) as [[hex|e] w2]; [|reflexivity]);
    run;
    (destruct (insertRuntimeVersion c v hex _) as [[e|] w3]; [reflexivity|]);
    now run.
Qed.

(** C3.  With the initializer that [NewCBCInitializer] builds, a fetch all
    of whose attempts fail makes exactly three RPC invocations, sleeps
    [2 * Second] between consecutive ones, and returns an error that names
    the three retries and wraps the error of the last attempt; [Initialize]
    then fails with that error wrapped once more.  This holds for
    [fetchRuntimeVersion], for [fetchMetadata], and for [Initialize]
    through either of them. *)
Theorem retry_exhaustion (ws : string) :
  let c := NewCBCInitializer ws in
  let url := httpURL c in
  let attempts (req : RPCRequest) (what : string) :=
    [EvRPC url req;
     EvLog Warning ("Retry 1/3: Fetching " ++ what ++ "...");
     EvSleep (2 * Second);
     EvRPC url req;
     EvLog Warning ("Retry 2/3: Fetching " ++ what ++ "...");
     EvSleep (2 * Second);
     EvRPC url req] in
  let exhausted (e : error) :=
    wrapError ("failed after 3 retries: " ++ Error e) e in
  (forall w,
     all_fail node versionOf url versionReq (rpcCalls w) 3 ->
     exists e,
       versionOf (node (2 + rpcCalls w)%nat url versionReq) = Err e
       /\ fetchRuntimeVersion node c w =
          (Err (exhausted e), advance w 3 (attempts versionReq "runtime version")))
  /\ (forall w,
       all_fail node metadataOf url metadataReq (rpcCalls w) 3 ->
       exists e,
         metadataOf (node (2 + rpcCalls w)%nat url metadataReq) = Err e
         /\ fetchMetadata node c w =
            (Err (exhausted e), advance w 3 (attempts metadataReq "metadata")))
  /\ (forall w,
       ~ usable (RuntimeVersionRecent (store w)) ->
       all_fail node versionOf url versionReq (rpcCalls w) 3 ->
       exists e,
         versionOf (node (2 + rpcCalls w)%nat url versionReq) = Err e
         /\ Initialize node c w =
            (Some (wrapError ("failed to fetch runtime version: "
                              ++ Error (exhausted e)) (exhausted e)),
             advance w 3
               ([EvLog Info "Starting CBC Chain initialization...";
                 EvLog Info "Runtime versions table is empty or incomplete, bootstrapping..."]
                ++ attempts versionReq "runtime version")%list))
  /\ (forall w v w1,
       ~ usable (RuntimeVersionRecent (store w)) ->
       fetchRuntimeVersion node c
         (advance w 0
            [EvLog Info "Starting CBC Chain initialization...";
             EvLog Info "Runtime versions table is empty or incomplete, bootstrapping..."])
       = (Ok v, w1) ->
       all_fail node metadataOf url metadataReq (rpcCalls w1) 3 ->
       exists e,
         metadataOf (node (2 + rpcCalls w1)%nat url metadataReq) = Err e
         /\ Initialize node c w =
            (Some (wrapError ("failed to fetch metadata: "
                              ++ Error (exhausted e)) (exhausted e)),
             advance w1 3
               ([EvLog Info ("Fetched runtime version: " ++ SpecName v ++ " v"
                             ++ fmt_d (SpecVersion v))]
                ++ attempts metadataReq "metadata")%list)).
Proof.
  intros c url attempts exhausted.
  split; [|split; [|split]].
  - intros w H. apply (fetchRuntimeVersion_exhausted c w eq_refl H).
  - intros w H. apply (fetchMetadata_exhausted c w eq_refl H).
  - intros w Hno H.
    destruct (fetchRuntimeVersion_exhausted c (advance w 0
      [EvLog Info "Starting CBC Chain initialization...";
       EvLog Info "Runtime versions table is empty or incomplete, bootstrapping..."])
      eq_refl H) as (e & He & Hf).
    exists e. split; [exact He|].
    rewrite Initialize_bootstrap by assumption. cbv zeta.
    rewrite Hf. autorewrite with world. reflexivity.
  - intros w v w1 Hno Hv H.
    destruct (fetchMetadata_exhausted c (advance w1 0
      [EvLog Info ("Fetched runtime version: " ++ SpecName v ++ " v"
                   ++ fmt_d (SpecVersion v))])
      eq_refl H) as (e & He & Hf).
    exists e. split; [exact He|].
    rewrite Initialize_bootstrap by assumption. cbv zeta.
    rewrite Hv, Hf. autorewrite with world. reflexivity.
Qed.

End Retry.

(* ------------------------------------------------------------------ *)
(** ** The bootstrap decision *)

Section Bootstrap.

Context {Store : Type} {dao : IDao Store} {json : Unmarshaler}.
Variable node : Node.
Implicit Types (w : World Store) (c : CBCInitializer).

Lemma usable_dec (recent : option RuntimeVersionRecord) :
  {usable recent} + {~ usable recent}.
Proof.
  destruct recent as [r|].
  - destruct (HasPrefix (RawData r) "0x") eqn:E.
    + left; now exists r.
    + right; intros (r' & [= <-] & H); congruence.
  - right; intros (r' & [=] & _).
Qed.

Lemma Initialize_skip c w r :
  RuntimeVersionRecent (store w) = Some r ->
  HasPrefix (RawData r) "0x" = true ->
  Initialize node c w =
  (None, advance w 0
     [EvLog Info "Starting CBC Chain initialization...";
      EvLog Info ("Runtime version already exists (spec: "
                  ++ fmt_d (RecSpecVersion r) ++ "), skipping bootstrap")]).
Proof.
  intros Hr Hp. unfold Initialize. run. rewrite Hr, Hp. now run.
Qed.

Lemma insertRuntimeVersion_rpcCalls c v hex w :
  rpcCalls (snd (insertRuntimeVersion c v hex w)) = rpcCalls w.
Proof.
  unfold insertRuntimeVersion, dao_CreateRuntimeVersion, dao_SetRuntimeData.
  run.
  destruct (RuntimeVersionRecent (store w)) as [r|];
    [destruct (_ && _); [reflexivity|]|];
    run;
    destruct (CreateRuntimeVersion _ _ _ _) as [created s]; run;
    destruct (SetRuntimeData _ _ _ _) as [affected s']; run;
    (destruct (RuntimeVersionRecent s') as [r'|]; [|reflexivity]);
    now destruct (_ || _).
Qed.

Lemma Initialize_bootstrap_calls c w :
  ~ usable (RuntimeVersionRecent (store w)) ->
  (0 < retries c)%Z ->
  (rpcCalls w < rpcCalls (snd (Initialize node c w)))%nat.
Proof.
  intros Hno Hret. rewrite Initialize_bootstrap by assumption. cbv zeta.
  assert (Hn : (0 < Z.to_nat (retries c))%nat) by lia.
  destruct (fetchRuntimeVersion node c _) as [[v|e] w1] eqn:Ev;
    apply fetchRuntimeVersion_loop_fetched in Ev as (k1 & evs1 & -> & _ & Hk1 & _);
    specialize (Hk1 Hn); autorewrite with world; cbn [snd].
  2: { autorewrite with world; lia. }
  destruct (fetchMetadata node c _) as [[hex|e] w2] eqn:Em;
    apply fetchMetadata_loop_fetched in Em as (k2 & evs2 & -> & _ & _ & _);
    autorewrite with world; cbn [snd].
  2: { autorewrite with world; lia. }
  destruct (insertRuntimeVersion c v hex _) as [[e|] w3] eqn:Ei;
    apply (f_equal (fun p => rpcCalls (snd p))) in Ei;
    rewrite insertRuntimeVersion_rpcCalls in Ei; cbn [snd] in Ei |- *;
    autorewrite with world in *; lia.
Qed.

(** C1, as amended.  [Initialize] skips the bootstrap, making no RPC
    invocation and returning success, if and only if the store holds a
    record whose raw metadata begins with "0x"; the length of the metadata
    plays no part in this test. *)
Theorem bootstrap_skipped_iff_prefixed (ws : string) (w : World Store) :
  let c := NewCBCInitializer ws in
  (usable (RuntimeVersionRecent (store w))
   <-> rpcCalls (snd (Initialize node c w)) = rpcCalls w)
  /\ (usable (RuntimeVersionRecent (store w)) ->
      fst (Initialize node c w) = None
      /\ store (snd (Initialize node c w)) = store w).
Proof.
  intros c. split; [split|].
  - intros (r & Hr & Hp). now rewrite (Initialize_skip c w r Hr Hp).
  - intros Hcalls.
    destruct (usable_dec (RuntimeVersionRecent (store w))) as [H|H]; [exact H|].
    apply (Initialize_bootstrap_calls c w) in H; [lia | reflexivity].
  - intros (r & Hr & Hp). now rewrite (Initialize_skip c w r Hr Hp).
Qed.

(** C2.  On a store that holds a valid record, [Initialize] returns
    success at once: it makes no RPC invocation, writes nothing and leaves
    the store as it is; a second call right after it does the same. *)
Theorem Initialize_idempotent (c : CBCInitializer) (w : World Store)
  (r : RuntimeVersionRecord) :
  RuntimeVersionRecent (store w) = Some r ->
  valid_record r ->
  let skipped :=
    [EvLog Info "Starting CBC Chain initialization...";
     EvLog Info ("Runtime version already exists (spec: "
                 ++ fmt_d (RecSpecVersion r) ++ "), skipping bootstrap")] in
  let w1 := snd (Initialize node c w) in
  let w2 := snd (Initialize node c w1) in
  Initialize node c w = (None, advance w 0 skipped)
  /\ Initialize node c w1 = (None, advance w 0 (skipped ++ skipped)%list)
  /\ (store w1 = store w /\ store w2 = store w)
  /\ (rpcCalls w1 = rpcCalls w /\ rpcCalls w2 = rpcCalls w)
  /\ (filter is_rpc (trace w2) = filter is_rpc (trace w)
      /\ filter is_write (trace w2) = filter is_write (trace w)).
Proof.
  intros Hr (_ & Hp & _) skipped w1 w2.
  assert (H1 : Initialize node c w = (None, advance w 0 skipped))
    by now apply Initialize_skip.
  assert (H2 : Initialize node c w1 = (None, advance w 0 (skipped ++ skipped)%list)).
  { subst w1. rewrite H1; cbn [snd].
    rewrite (Initialize_skip c (advance w 0 skipped) r) by assumption.
    now autorewrite with world. }
  subst w2. rewrite H2. subst w1. rewrite H1. cbn [snd].
  autorewrite with world. rewrite !filter_app, !app_nil_r.
  repeat split; reflexivity.
Qed.

End Bootstrap.

(* ------------------------------------------------------------------ *)
(** ** Verification after the insert *)

Section Verification.

Context {Store : Type} {dao : IDao Store} {json : Unmarshaler}.
Variable node : Node.
Implicit Types (w : World Store) (c : CBCInitializer).

Lemma rpcResult_not_verification (x : Exchange) (e : error) :
  rpcResult x = Err e -> e <> verificationError.
Proof.
  unfold verificationError.
  destruct x as [e0|e0|e0|code body]; cbn [rpcResult Errorf_w];
    try (intros [= <-]; discriminate).
  destruct (negb _); [intros [= <-]; cbn; discriminate|].
  destruct body as [e0|e0|resp]; cbn [Errorf_w];
    try (intros [= <-]; discriminate).
  destruct (RespError resp); [intros [= <-]; cbn; discriminate | discriminate].
Qed.

(** C4.  When both fetches have succeeded, the record found before the
    insert does not make it skip the writes, and the record read back
    after the two writes is absent, or of another spec version, or holds
    fewer than 100 bytes of metadata, [Initialize] fails with the
    verification error wrapped once: an error that no RPC invocation can
    produce and that is neither of the two fetch failures.  Each write was
    issued once, no further RPC invocation was made and nothing was
    registered with the codec. *)
Theorem verification_failure (c : CBCInitializer) (w w1 w2 : World Store)
  (v : RuntimeVersion) (metadataHex : string) :
  ~ usable (RuntimeVersionRecent (store w)) ->
  fetchRuntimeVersion node c
    (advance w 0
       [EvLog Info "Starting CBC Chain initialization...";
        EvLog Info "Runtime versions table is empty or incomplete, bootstrapping..."])
  = (Ok v, w1) ->
  fetchMetadata node c
    (advance w1 0
       [EvLog Info ("Fetched runtime version: " ++ SpecName v ++ " v"
                    ++ fmt_d (SpecVersion v))])
  = (Ok metadataHex, w2) ->
  (forall r, RuntimeVersionRecent (store w) = Some r ->
             RecSpecVersion r = SpecVersion v ->
             (length (RawData r) <= 100)%nat) ->
  let created := CreateRuntimeVersion (SpecName v) (SpecVersion v) 0 (store w) in
  let affected := SetRuntimeData (SpecVersion v) CBCModules metadataHex (snd created) in
  let readBack := RuntimeVersionRecent (snd affected) in
  (readBack = None
   \/ exists r, readBack = Some r
                /\ (RecSpecVersion r <> SpecVersion v
                    \/ (length (RawData r) < 100)%nat)) ->
  let failure :=
    wrapError ("failed to insert runtime version: " ++ Error verificationError)
      verificationError in
  let w' := snd (Initialize node c w) in
  Initialize node c w =
    (Some failure,
     advance (setStore w2 (snd affected)) 0
       [EvLog Info ("Fetched metadata: " ++ fmt_d (Z.of_nat (length metadataHex))
                    ++ " bytes");
        EvLog Info ("Inserting runtime version " ++ fmt_d (SpecVersion v)
                    ++ " into database...");
        EvCreateRuntimeVersion (SpecName v) (SpecVersion v) 0;
        EvLog Info ("CreateRuntimeVersion returned: " ++ fmt_d (fst created));
        EvSetRuntimeData (SpecVersion v) CBCModules metadataHex;
        EvLog Info ("SetRuntimeData affected " ++ fmt_d (fst affected) ++ " rows")])
  /\ rpcCalls w' = rpcCalls w2
  /\ filter is_write (trace w')
     = (filter is_write (trace w)
        ++ [EvCreateRuntimeVersion (SpecName v) (SpecVersion v) 0;
            EvSetRuntimeData (SpecVersion v) CBCModules metadataHex])%list
  /\ (forall x e, rpcResult x = Err e -> e <> verificationError)
  /\ (forall e, failure <> Errorf_w "failed to fetch runtime version: " (Some e))
  /\ (forall e, failure <> Errorf_w "failed to fetch metadata: " (Some e)).
Proof.
  intros Hno Hv Hm Hpre created affected readBack Hpost failure w'.
  assert (Hinit : Initialize node c w =
    (Some failure,
     advance (setStore w2 (snd affected)) 0
       [EvLog Info ("Fetched metadata: " ++ fmt_d (Z.of_nat (length metadataHex))
                    ++ " bytes");
        EvLog Info ("Inserting runtime version " ++ fmt_d (SpecVersion v)
                    ++ " into database...");
        EvCreateRuntimeVersion (SpecName v) (SpecVersion v) 0;
        EvLog Info ("CreateRuntimeVersion returned: " ++ fmt_d (fst created));
        EvSetRuntimeData (SpecVersion v) CBCModules metadataHex;
        EvLog Info ("SetRuntimeData affected " ++ fmt_d (fst affected) ++ " rows")])).
  { rewrite Initialize_bootstrap by assumption. cbv zeta. rewrite Hv, Hm.
    assert (Hs : store w2 = store w).
    { apply fetchRuntimeVersion_loop_fetched in Hv as (k1 & evs1 & -> & _).
      now apply fetchMetadata_loop_fetched in Hm as (k2 & evs2 & -> & _). }
    unfold insertRuntimeVersion, dao_CreateRuntimeVersion, dao_SetRuntimeData.
    run. rewrite Hs.
    assert (Hskip : match RuntimeVersionRecent (store w) with
                    | Some r => (RecSpecVersion r =? SpecVersion v)%Z
                                && (100 <? length (RawData r))%nat
                    | None => false
                    end = false).
    { destruct (RuntimeVersionRecent (store w)) as [r|]; [|reflexivity].
      destruct (Z.eqb_spec (RecSpecVersion r) (SpecVersion v)); [|reflexivity].
      specialize (Hpre r eq_refl e). cbn [andb]. apply Nat.ltb_ge; lia. }
    subst readBack affected created. unfold CBCModules in *.
    destruct (RuntimeVersionRecent (store w)) as [r0|]; [rewrite Hskip|];
      run; rewrite ?Hs;
      destruct (CreateRuntimeVersion _ _ _ _) as [cr s1]; run;
      cbn [fst snd] in *;
      destruct (SetRuntimeData _ _ _ _) as [af s2]; run;
      cbn [fst snd] in *;
      (destruct Hpost as [-> | (r & -> & Hbad)]; [reflexivity|]);
      (assert (Hb : negb (RecSpecVersion r =? SpecVersion v)%Z
                    || (length (RawData r) <? 100)%nat = true);
       [ destruct Hbad as [Hne | Hlt];
         [ apply Z.eqb_neq in Hne; now rewrite Hne
         | apply Nat.ltb_lt in Hlt; rewrite Hlt; apply orb_true_r ]
       | rewrite Hb; reflexivity ]). }
  split; [exact Hinit|].
  subst w'. rewrite Hinit. cbn [snd]. autorewrite with world.
  split; [reflexivity|]. split.
  - apply fetchRuntimeVersion_loop_fetched in Hv as (k1 & evs1 & -> & _ & _ & Hw1).
    apply fetchMetadata_loop_fetched in Hm as (k2 & evs2 & -> & _ & _ & Hw2).
    autorewrite with world. rewrite !filter_app, Hw1, Hw2. cbn.
    now rewrite !app_nil_r.
  - split; [apply rpcResult_not_verification|].
    split; intros e; subst failure; cbn; intros [= H]; discriminate.
Qed.

End Verification.

(* ------------------------------------------------------------------ *)
(** ** The finality check and the service start *)

Section Finality.

Context {Store : Type} {dao : IDao Store} {json : Unmarshaler}.
Variable node : Node.
Implicit Types (w : World Store) (c : CBCInitializer).

Lemma VerifyDCFFinality_head_fails c w e :
  rpcResult (node (rpcCalls w) (httpURL c) headReq) = Err e ->
  VerifyDCFFinality node c w =
  (Some (wrapError ("failed to get finalized head: " ++ Error e) e),
   advance w 1 [EvLog Info "Verifying DCF finality integration...";
                EvRPC (httpURL c) headReq]).
Proof.
  intros H. unfold VerifyDCFFinality. fold headReq. run. now rewrite H.
Qed.

Lemma VerifyDCFFinality_block_fails c w resp finalizedHash e :
  rpcResult (node (rpcCalls w) (httpURL c) headReq) = Ok resp ->
  Unmarshal_string (Result resp) = Ok finalizedHash ->
  rpcResult (node (S (rpcCalls w)) (httpURL c) (blockReq finalizedHash)) = Err e ->
  VerifyDCFFinality node c w =
  (Some (wrapError ("failed to get finalized block: " ++ Error e) e),
   advance w 2 [EvLog Info "Verifying DCF finality integration...";
                EvRPC (httpURL c) headReq;
                EvRPC (httpURL c) (blockReq finalizedHash)]).
Proof.
  intros H1 Hh H2. unfold VerifyDCFFinality. fold headReq. run.
  rewrite H1, Hh. fold (blockReq finalizedHash). run. now rewrite H2.
Qed.

Lemma VerifyDCFFinality_classifies c w resp finalizedHash resp' :
  rpcResult (node (rpcCalls w) (httpURL c) headReq) = Ok resp ->
  Unmarshal_string (Result resp) = Ok finalizedHash ->
  rpcResult (node (S (rpcCalls w)) (httpURL c) (blockReq finalizedHash)) = Ok resp' ->
  Unmarshal_map (Result resp') = None ->
  VerifyDCFFinality node c w =
  (None,
   advance w 2
     ([EvLog Info "Verifying DCF finality integration...";
       EvRPC (httpURL c) headReq;
       EvRPC (httpURL c) (blockReq finalizedHash);
       EvLog Info ("Finalized block hash: " ++ finalizedHash)]
      ++ (if String.eqb finalizedHash "0x" || HasSuffix finalizedHash genesisSuffix
          then finalityWarnings else finalityPassed))%list).
Proof.
  intros H1 Hh H2 Hm. unfold VerifyDCFFinality. fold headReq. run.
  rewrite H1, Hh. fold (blockReq finalizedHash). run. rewrite H2, Hm. run.
  now destruct (_ || _); run.
Qed.

Lemma zero_hash_suffix : zero_hash = "0x0000" ++ genesisSuffix.
Proof. reflexivity. Qed.

(** C5, as amended.  When both calls of [VerifyDCFFinality] succeed and
    both results decode (the finalized head to a string, the block to an
    object), it returns no error, and it logs the two warnings if and only
    if the finalized hash is "0x" or ends with 60 zero digits, which the
    all-zero hash does; for every other hash it logs that the verification
    passed. *)
Theorem finality_classification (c : CBCInitializer) (w : World Store)
  (resp resp' : RPCResponse) (finalizedHash : string) :
  rpcResult (node (rpcCalls w) (httpURL c) headReq) = Ok resp ->
  Unmarshal_string (Result resp) = Ok finalizedHash ->
  rpcResult (node (S (rpcCalls w)) (httpURL c) (blockReq finalizedHash)) = Ok resp' ->
  Unmarshal_map (Result resp') = None ->
  let genesis_like :=
    finalizedHash = "0x" \/ exists p, finalizedHash = p ++ genesisSuffix in
  let checked (verdict : list Event) :=
    advance w 2
      ([EvLog Info "Verifying DCF finality integration...";
        EvRPC (httpURL c) headReq;
        EvRPC (httpURL c) (blockReq finalizedHash);
        EvLog Info ("Finalized block hash: " ++ finalizedHash)] ++ verdict)%list in
  (genesis_like -> VerifyDCFFinality node c w = (None, checked finalityWarnings))
  /\ (~ genesis_like -> VerifyDCFFinality node c w = (None, checked finalityPassed))
  /\ (finalizedHash = zero_hash -> genesis_like).
Proof.
  intros H1 Hh H2 Hm genesis_like checked.
  rewrite (VerifyDCFFinality_classifies c w resp finalizedHash resp' H1 Hh H2 Hm).
  subst genesis_like checked. cbv beta.
  split; [|split].
  - intros [-> | Hs]; [reflexivity|].
    apply HasSuffix_iff in Hs. now rewrite Hs, orb_true_r.
  - intros Hn.
    destruct (String.eqb_spec finalizedHash "0x") as [E|_]; [elim Hn; now left|].
    destruct (HasSuffix finalizedHash genesisSuffix) eqn:E; [|reflexivity].
    elim Hn; right. now apply HasSuffix_iff.
  - intros ->. right. exists "0x0000". apply zero_hash_suffix.
Qed.

Lemma initCBCChain_applicable NetworkNode WSEndPoint w :
  Contains (ToLower NetworkNode) "cbc" = true ->
  initCBCChain node NetworkNode WSEndPoint w =
  let c := NewCBCInitializer WSEndPoint in
  let w0 := advance w 0
    [EvLog Info "Initializing CBC Chain specific components...";
     EvLog Info ("Detected CBC Chain network: " ++ NetworkNode)] in
  let (e, w1) := Initialize node c w0 in
  match e with
  | Some err => (Some (Errorf_w "CBC initialization failed: " (Some err)), w1)
  | None =>
      let (v, w2) := VerifyDCFFinality node c w1 in
      (None,
       advance w2 0
         (match v with
          | Some err =>
              [EvLog Warning ("DCF finality verification warning: " ++ Error err)]
          | None => []
          end ++ [EvLog Info "CBC Chain initialization completed successfully"])%list)
  end.
Proof.
  intros H. unfold initCBCChain. rewrite not_cbc_test, H. cbn [negb]. run.
  destruct (Initialize node _ _) as [[e|] w1]; [reflexivity|].
  destruct (VerifyDCFFinality node _ _) as [[e|] w2]; now run.
Qed.

Lemma initCBCChain_not_applicable NetworkNode WSEndPoint w :
  Contains (ToLower NetworkNode) "cbc" = false ->
  initCBCChain node NetworkNode WSEndPoint w =
  (Some (errorString "not a CBC network"),
   advance w 0
     [EvLog Info "Initializing CBC Chain specific components...";
      EvLog Info ("Not a CBC Chain network (network: " ++ NetworkNode
                  ++ "), skipping CBC initialization")]).
Proof.
  intros H. unfold initCBCChain. rewrite not_cbc_test, H. cbn [negb]. now run.
Qed.

(** C6.  Once [Initialize] has succeeded, [initCBCChain] returns success
    whatever happens in [VerifyDCFFinality], and [New] goes on without the
    fallback: a failure of either RPC call of the check comes back from
    [VerifyDCFFinality] as an error value, which [initCBCChain] logs as a
    warning and drops. *)
Theorem finality_failure_swallowed (NetworkNode WSEndPoint : string)
  (w w1 : World Store) :
  Contains (ToLower NetworkNode) "cbc" = true ->
  let c := NewCBCInitializer WSEndPoint in
  Initialize node c
    (advance w 0
       [EvLog Info "Initializing CBC Chain specific components...";
        EvLog Info ("Detected CBC Chain network: " ++ NetworkNode)])
  = (None, w1) ->
  let swallowed (err : error) :=
    [EvLog Warning ("DCF finality verification warning: " ++ Error err);
     EvLog Info "CBC Chain initialization completed successfully"] in
  (fst (initCBCChain node NetworkNode WSEndPoint w) = None
   /\ fst (New node NetworkNode WSEndPoint w) = initSubRuntimeLatestWithoutFetch)
  /\ (forall err w2,
        VerifyDCFFinality node c w1 = (Some err, w2) ->
        initCBCChain node NetworkNode WSEndPoint w = (None, advance w2 0 (swallowed err)))
  /\ (forall e,
        rpcResult (node (rpcCalls w1) (httpURL c) headReq) = Err e ->
        initCBCChain node NetworkNode WSEndPoint w =
        (None,
         advance w1 1
           ([EvLog Info "Verifying DCF finality integration...";
             EvRPC (httpURL c) headReq]
            ++ swallowed (wrapError ("failed to get finalized head: " ++ Error e) e))%list))
  /\ (forall resp finalizedHash e,
        rpcResult (node (rpcCalls w1) (httpURL c) headReq) = Ok resp ->
        Unmarshal_string (Result resp) = Ok finalizedHash ->
        rpcResult (node (S (rpcCalls w1)) (httpURL c) (blockReq finalizedHash))
        = Err e ->
        initCBCChain node NetworkNode WSEndPoint w =
        (None,
         advance w1 2
           ([EvLog Info "Verifying DCF finality integration...";
             EvRPC (httpURL c) headReq;
             EvRPC (httpURL c) (blockReq finalizedHash)]
            ++ swallowed (wrapError ("failed to get finalized block: " ++ Error e) e))%list)).
Proof.
  intros Happ c Hinit swallowed.
  pose proof (initCBCChain_applicable NetworkNode WSEndPoint w Happ) as Heq.
  cbv zeta in Heq. fold c in Heq. rewrite Hinit in Heq.
  split; [|split; [|split]].
  - unfold New, bind. rewrite Heq.
    now destruct (VerifyDCFFinality node c w1) as [v w2].
  - intros err w2 Hv. now rewrite Heq, Hv.
  - intros e He. rewrite Heq, (VerifyDCFFinality_head_fails c w1 e He).
    now autorewrite with world.
  - intros resp h e H1 Hh H2.
    rewrite Heq, (VerifyDCFFinality_block_fails c w1 resp h e H1 Hh H2).
    now autorewrite with world.
Qed.

(** C7.  [initCBCChain] goes on to the CBC initialization if and only if
    the network name contains "cbc" in any case of its three letters.  For
    any other name it only logs two lines: it makes no RPC invocation,
    leaves the store alone and returns the error "not a CBC network", on
    which [New] logs a warning and falls back to [initSubRuntimeLatest]. *)
Theorem network_matching (NetworkNode WSEndPoint : string) (w : World Store) :
  (cbc_any_case NetworkNode
   <-> fst (initCBCChain node NetworkNode WSEndPoint w)
       <> Some (errorString "not a CBC network"))
  /\ (~ cbc_any_case NetworkNode ->
      let skipped :=
        [EvLog Info "Initializing CBC Chain specific components...";
         EvLog Info ("Not a CBC Chain network (network: " ++ NetworkNode
                     ++ "), skipping CBC initialization")] in
      initCBCChain node NetworkNode WSEndPoint w
      = (Some (errorString "not a CBC network"), advance w 0 skipped)
      /\ New node NetworkNode WSEndPoint w
         = (initSubRuntimeLatest,
            advance w 0
              (skipped ++ [EvLog Warning "CBC initialization warning: not a CBC network"])%list)
      /\ filter is_rpc skipped = []
      /\ filter is_write skipped = []).
Proof.
  rewrite <- !Contains_ToLower_cbc.
  split; [split|].
  - intros H. rewrite (initCBCChain_applicable _ _ _ H). cbv zeta.
    destruct (Initialize node _ _) as [[e|] w1]; [discriminate|].
    destruct (VerifyDCFFinality node _ _) as [v w2]. discriminate.
  - intros H. destruct (Contains (ToLower NetworkNode) "cbc") eqn:E; [reflexivity|].
    now rewrite (initCBCChain_not_applicable _ _ _ E) in H.
  - intros H. apply not_true_is_false in H.
    pose proof (initCBCChain_not_applicable NetworkNode WSEndPoint w H) as Heq.
    repeat split; [exact Heq|].
    unfold New, bind. rewrite Heq. now run.
Qed.

End Finality.

(* ------------------------------------------------------------------ *)
(** ** The metadata that [fetchMetadata] returns *)

Section Metadata.

Context {Store : Type} {dao : IDao Store} {json : Unmarshaler}.
Variable node : Node.
Implicit Types (w : World Store) (c : CBCInitializer).

(** C10.  Metadata that [fetchMetadata] returns without error begins with
    "0x".  An answer that decodes to a string without the prefix is not
    returned: it uses up its iteration of the loop, which records the
    format error as the last error and goes on to the next attempt. *)
Theorem fetchMetadata_prefixed (c : CBCInitializer) (w : World Store) :
  (forall metadataHex w',
     fetchMetadata node c w = (Ok metadataHex, w') ->
     HasPrefix metadataHex "0x" = true)
  /\ (forall n i lastErr resp s,
        rpcResult (node (rpcCalls w) (httpURL c) metadataReq) = Ok resp ->
        Unmarshal_string (Result resp) = Ok s ->
        HasPrefix s "0x" = false ->
        fetchMetadata_loop node c (S n) i lastErr w =
        fetchMetadata_loop node c n (i + 1)
          (Some (errorString "invalid metadata format: missing 0x prefix"))
          (advance w 1
             (retryEvents c i "metadata" ++ [EvRPC (httpURL c) metadataReq])%list)).
Proof.
  split.
  - intros hex w' H.
    apply fetchMetadata_loop_Ok in H as (j & _ & H).
    now apply metadataOf_prefixed in H.
  - intros n i lastErr resp s Hr Hs Hp.
    rewrite fetchMetadata_loop_S. cbv zeta.
    unfold metadataOf. now rewrite Hr, Hs, Hp.
Qed.

End Metadata.

(* ------------------------------------------------------------------ *)
(** ** The statements at the test doubles *)

Import Doubles.

Lemma fetchMetadata_prefixed_witness :
  HasPrefix sampleMetadata "0x" = true
  /\ fetchMetadata_loop (Store := option RuntimeVersionRecord) (json := toyJSON)
       (unprefixedFirst sampleMetadata zero_hash) sampleInit 3 0 None emptyWorld
     = fetchMetadata_loop (Store := option RuntimeVersionRecord) (json := toyJSON)
         (unprefixedFirst sampleMetadata zero_hash) sampleInit 2 (0 + 1)
         (Some (errorString "invalid metadata format: missing 0x prefix"))
         (advance emptyWorld 1 [EvRPC "http://172.17.0.1:9933" metadataReq]).
Proof.
  split.
  - apply (proj1 (fetchMetadata_prefixed (Store := option RuntimeVersionRecord)
                    (json := toyJSON)
                    (liveNode sampleMetadata zero_hash) sampleInit emptyWorld)
             sampleMetadata
             (advance emptyWorld 1 [EvRPC "http://172.17.0.1:9933" metadataReq])).
    vm_compute. reflexivity.
  - apply (proj2 (fetchMetadata_prefixed (Store := option RuntimeVersionRecord)
                    (json := toyJSON)
                    (unprefixedFirst sampleMetadata zero_hash) sampleInit emptyWorld)
             2%nat 0%Z None
             {| RespID := 1; RespJSONRPC := "2.0"; Result := quoted "deadbeef";
                RespError := None |}
             "deadbeef");
      reflexivity.
Defined.

Lemma sampleMetadata_valid : valid_record (record sampleMetadata).
Proof.
  split; [discriminate|]. split; [reflexivity|].
  apply Nat.ltb_lt; reflexivity.
Qed.

Lemma bootstrap_skipped_iff_prefixed_witness :
  fst (Initialize (dao := memDao) (json := toyJSON) deadNode sampleInit
         (worldWith (record sampleMetadata))) = None
  /\ store (snd (Initialize (dao := memDao) (json := toyJSON) deadNode sampleInit
                   (worldWith (record sampleMetadata))))
     = Some (record sampleMetadata).
Proof.
  apply (proj2 (bootstrap_skipped_iff_prefixed (dao := memDao) (json := toyJSON)
                  deadNode "ws://172.17.0.1:9933" (worldWith (record sampleMetadata)))).
  exists (record sampleMetadata). split; reflexivity.
Defined.

(** C1, as stated, fails: a stored record whose metadata is just "0x" is
    not valid, and [Initialize] still skips the bootstrap on it (the node
    is unreachable here, so a bootstrap would have failed). *)
Lemma short_metadata_accepted :
  ~ valid_record (record "0x")
  /\ fst (Initialize (dao := memDao) (json := toyJSON) deadNode sampleInit
            (worldWith (record "0x"))) = None
  /\ rpcCalls (snd (Initialize (dao := memDao) (json := toyJSON) deadNode sampleInit
                      (worldWith (record "0x")))) = 0%nat.
Proof.
  split; [|split; reflexivity].
  intros (_ & _ & H). cbn in H. lia.
Qed.

Lemma Initialize_idempotent_witness :
  Initialize (dao := memDao) (json := toyJSON) deadNode sampleInit
    (worldWith (record sampleMetadata))
  = (None,
     advance (worldWith (record sampleMetadata)) 0
       [EvLog Info "Starting CBC Chain initialization...";
        EvLog Info "Runtime version already exists (spec: 100), skipping bootstrap"])
  /\ rpcCalls (snd (Initialize (dao := memDao) (json := toyJSON) deadNode sampleInit
                      (snd (Initialize (dao := memDao) (json := toyJSON) deadNode
                              sampleInit (worldWith (record sampleMetadata))))))
     = 0%nat.
Proof.
  destruct (Initialize_idempotent (dao := memDao) (json := toyJSON) deadNode
              sampleInit (worldWith (record sampleMetadata)) (record sampleMetadata)
              eq_refl sampleMetadata_valid)
    as (H1 & _ & _ & (_ & H2) & _).
  split; [exact H1 | exact H2].
Defined.

Lemma deadNode_all_fail {A} (outcome : Exchange -> result A) (req : RPCRequest)
  (from : nat) :
  (forall e, outcome (DoError e) = Err (Errorf_w "failed to make request: " (Some e))) ->
  all_fail deadNode outcome "http://172.17.0.1:9933" req from 3.
Proof. intros H k _. eexists. apply H. Qed.

Lemma retry_exhaustion_witness :
  (fst (Initialize (dao := memDao) (json := toyJSON) deadNode sampleInit emptyWorld)
   = Some (Errorf_w "failed to fetch runtime version: "
             (Some (Errorf_w "failed after 3 retries: "
                (Some (Errorf_w "failed to make request: "
                   (Some (errorString "dial tcp: connection refused")))))))
   /\ rpcCalls (snd (Initialize (dao := memDao) (json := toyJSON) deadNode sampleInit
                       emptyWorld)) = 3%nat)
  /\ (fst (Initialize (dao := memDao) (json := toyJSON) versionOnlyNode sampleInit
             emptyWorld)
      = Some (Errorf_w "failed to fetch metadata: "
                (Some (Errorf_w "failed after 3 retries: "
                   (Some (Errorf_w "failed to make request: "
                      (Some (errorString "dial tcp: connection refused")))))))
      /\ rpcCalls (snd (Initialize (dao := memDao) (json := toyJSON) versionOnlyNode
                          sampleInit emptyWorld)) = 4%nat).
Proof.
  split.
  - destruct (proj1 (proj2 (proj2
                (retry_exhaustion (dao := memDao) (json := toyJSON) deadNode
                   "ws://172.17.0.1:9933"))) emptyWorld)
      as (e & He & Hi).
    + intros (r & Hr & _). discriminate Hr.
    + apply deadNode_all_fail. reflexivity.
    + injection He as <-. unfold sampleInit. rewrite Hi. split; reflexivity.
  - edestruct (proj2 (proj2 (proj2
                 (retry_exhaustion (dao := memDao) (json := toyJSON) versionOnlyNode
                    "ws://172.17.0.1:9933"))) emptyWorld sampleVersion)
      as (e & He & Hi).
    + intros (r & Hr & _). discriminate Hr.
    + vm_compute. reflexivity.
    + intros k _. eexists. cbn [rpcCalls]. rewrite Nat.add_1_r. reflexivity.
    + injection He as <-. unfold sampleInit. rewrite Hi. split; reflexivity.
Defined.

Lemma verification_failure_witness :
  fst (Initialize (dao := dropDao) (json := toyJSON)
         (liveNode sampleMetadata zero_hash) sampleInit emptyWorld)
  = Some (Errorf_w "failed to insert runtime version: " (Some verificationError))
  /\ rpcCalls (snd (Initialize (dao := dropDao) (json := toyJSON)
                      (liveNode sampleMetadata zero_hash) sampleInit emptyWorld))
     = 2%nat.
Proof.
  edestruct (verification_failure (dao := dropDao) (json := toyJSON)
               (liveNode sampleMetadata zero_hash) sampleInit emptyWorld)
    as (H & _).
  - intros (r & Hr & _). discriminate Hr.
  - vm_compute. reflexivity.
  - vm_compute. reflexivity.
  - intros r Hr. discriminate Hr.
  - left. reflexivity.
  - rewrite H. split; reflexivity.
Defined.

Lemma finality_classification_witness :
  VerifyDCFFinality (Store := option RuntimeVersionRecord) (json := toyJSON)
    (liveNode sampleMetadata zero_hash) sampleInit emptyWorld
  = (None,
     advance emptyWorld 2
       ([EvLog Info "Verifying DCF finality integration...";
         EvRPC "http://172.17.0.1:9933" headReq;
         EvRPC "http://172.17.0.1:9933" (blockReq zero_hash);
         EvLog Info ("Finalized block hash: " ++ zero_hash)]
        ++ finalityWarnings)%list).
Proof.
  apply (proj1 (finality_classification (Store := option RuntimeVersionRecord)
                  (json := toyJSON) (liveNode sampleMetadata zero_hash)
                  sampleInit emptyWorld
                  {| RespID := 1; RespJSONRPC := "2.0"; Result := quoted zero_hash;
                     RespError := None |}
                  {| RespID := 2; RespJSONRPC := "2.0"; Result := "{}";
                     RespError := None |}
                  zero_hash eq_refl eq_refl eq_refl eq_refl)).
  right. exists "0x0000". reflexivity.
Defined.

(** C5, as stated, fails: a well-formed hash that is neither empty nor
    all-zero, and that ends with 60 zero digits, gets the warnings. *)
Lemma odd_hash_warned :
  well_formed_hash oddHash = true
  /\ oddHash <> "" /\ oddHash <> "0x" /\ oddHash <> zero_hash
  /\ VerifyDCFFinality (Store := option RuntimeVersionRecord) (json := toyJSON)
       (liveNode sampleMetadata oddHash) sampleInit emptyWorld
     = (None,
        advance emptyWorld 2
          ([EvLog Info "Verifying DCF finality integration...";
            EvRPC "http://172.17.0.1:9933" headReq;
            EvRPC "http://172.17.0.1:9933" (blockReq oddHash);
            EvLog Info ("Finalized block hash: " ++ oddHash)]
           ++ finalityWarnings)%list).
Proof.
  split; [reflexivity|].
  split; [discriminate|]. split; [discriminate|]. split; [discriminate|].
  vm_compute. reflexivity.
Qed.

Lemma finality_failure_swallowed_witness :
  fst (initCBCChain (dao := memDao) (json := toyJSON) deadNode
         "CBC-Chain" "ws://172.17.0.1:9933" (worldWith (record sampleMetadata)))
  = None
  /\ fst (New (dao := memDao) (json := toyJSON) deadNode
            "CBC-Chain" "ws://172.17.0.1:9933" (worldWith (record sampleMetadata)))
     = initSubRuntimeLatestWithoutFetch.
Proof.
  eapply (proj1 (finality_failure_swallowed (dao := memDao) (json := toyJSON)
                   deadNode "CBC-Chain" "ws://172.17.0.1:9933"
                   (worldWith (record sampleMetadata)) _ eq_refl _)).
  Unshelve.
  2: { vm_compute. reflexivity. }
Defined.

Lemma network_matching_witness :
  (fst (initCBCChain (dao := memDao) (json := toyJSON) deadNode
          "My-CbC-Net" "ws://172.17.0.1:9933" emptyWorld)
   <> Some (errorString "not a CBC network")
   /\ fst (initCBCChain (dao := memDao) (json := toyJSON) deadNode
             "CBC" "ws://172.17.0.1:9933" emptyWorld)
      <> Some (errorString "not a CBC network"))
  /\ initCBCChain (dao := memDao) (json := toyJSON) deadNode
       "polkadot" "ws://172.17.0.1:9933" emptyWorld
     = (Some (errorString "not a CBC network"),
        advance emptyWorld 0
          [EvLog Info "Initializing CBC Chain specific components...";
           EvLog Info "Not a CBC Chain network (network: polkadot), skipping CBC initialization"])
  /\ fst (New (dao := memDao) (json := toyJSON) deadNode
            "polkadot" "ws://172.17.0.1:9933" emptyWorld)
     = initSubRuntimeLatest.
Proof.
  split; [split|].
  - apply (proj1 (proj1 (network_matching (dao := memDao) (json := toyJSON) deadNode
                           "My-CbC-Net" "ws://172.17.0.1:9933" emptyWorld))).
    exists "My-", "C"%char, "b"%char, "C"%char, "-Net".
    split; [reflexivity|]. split; [now right|]. split; [now left | now right].
  - apply (proj1 (proj1 (network_matching (dao := memDao) (json := toyJSON) deadNode
                           "CBC" "ws://172.17.0.1:9933" emptyWorld))).
    exists "", "C"%char, "B"%char, "C"%char, "".
    split; [reflexivity|]. split; [now right|]. split; now right.
  - destruct (proj2 (network_matching (dao := memDao) (json := toyJSON) deadNode
                       "polkadot" "ws://172.17.0.1:9933" emptyWorld))
      as (H1 & H2 & _).
    + intros H. apply Contains_ToLower_cbc in H. discriminate H.
    + split; [exact H1 | now rewrite H2].
Defined.

(* ------------------------------------------------------------------ *)
(** ** The whole path, run *)

(** A node that refuses the first two calls: the version arrives on the
    third attempt, the metadata on the first, the record is written and
    read back, and the metadata is registered. *)
Example Initialize_after_two_refusals :
  let r := Initialize (dao := memDao) (json := toyJSON)
             (lateNode 2 sampleMetadata zero_hash) sampleInit emptyWorld in
  fst r = None
  /\ store (snd r)
     = Some {| RecName := "cbc-chain"; RecSpecVersion := 100; RecBlockNum := 0;
               RawData := sampleMetadata |}
  /\ rpcCalls (snd r) = 4%nat
  /\ filter is_write (trace (snd r))
     = [EvCreateRuntimeVersion "cbc-chain" 100 0;
        EvSetRuntimeData 100 CBCModules sampleMetadata]
  /\ In (EvLatest 100 sampleMetadata) (trace (snd r)).
Proof. vm_compute. repeat split. intuition. Qed.

(** The same start through [New]: once the record is stored, a second
    start makes only the two calls of the finality check. *)
Example New_twice :
  let first := New (dao := memDao) (json := toyJSON)
                 (liveNode sampleMetadata zero_hash)
                 "cbc-chain" "ws://172.17.0.1:9933" emptyWorld in
  let second := New (dao := memDao) (json := toyJSON)
                  (liveNode sampleMetadata zero_hash)
                  "cbc-chain" "ws://172.17.0.1:9933" (snd first) in
  fst first = initSubRuntimeLatestWithoutFetch
  /\ rpcCalls (snd first) = 4%nat
  /\ fst second = initSubRuntimeLatestWithoutFetch
  /\ rpcCalls (snd second) = 6%nat
  /\ store (snd second) = store (snd first).
Proof. vm_compute. repeat split. Qed.

Lemma Unwrap_Errorf_w (text : string) (e : error) :
  Unwrap (Errorf_w text (Some e)) = Some e.
Proof. reflexivity. Qed.

(* ------------------------------------------------------------------ *)
(** ** More on the endpoint conversion and the constants *)

Section Conversion.

Lemma slice_to_all (s : string) (n : nat) : (length s <= n)%nat -> slice_to s n = s.
Proof.
  revert s; induction n as [|n IH]; intros [|a s] H; cbn in *; try reflexivity; try lia.
  f_equal. apply IH. lia.
Qed.

Lemma convertWSToHTTP_cases (s : string) :
  (exists r, s = "ws://" ++ r /\ r <> "" /\ convertWSToHTTP s = "http://" ++ r)
  \/ (exists r, s = "wss://" ++ r /\ r <> "" /\ convertWSToHTTP s = "https://" ++ r)
  \/ (convertWSToHTTP s = s
      /\ (HasPrefix s "ws://" = true -> s = "ws://")
      /\ (HasPrefix s "wss://" = true -> s = "wss://")).
Proof.
  unfold convertWSToHTTP, HasPrefix; cbn [length].
  destruct (Nat.ltb_spec 5 (length s)) as [L5|L5];
    destruct (String.eqb_spec (slice_to s 5) "ws://") as [E5|E5]; cbn [andb].
  - left. exists (slice_from s 5). rewrite <- E5.
    split; [apply slice_split|]. split; [|reflexivity].
    intros H. pose proof (f_equal length (slice_split s 5)) as Hl.
    rewrite H, length_app, E5 in Hl. cbn in Hl. lia.
  - destruct (Nat.ltb_spec 6 (length s)) as [L6|L6];
      destruct (String.eqb_spec (slice_to s 6) "wss://") as [E6|E6]; cbn [andb].
    + right; left. exists (slice_from s 6). rewrite <- E6.
      split; [apply slice_split|]. split; [|reflexivity].
      intros H. pose proof (f_equal length (slice_split s 6)) as Hl.
      rewrite H, length_app, E6 in Hl. cbn in Hl. lia.
    + right; right. split; [reflexivity|]. rewrite !andb_false_r. split; discriminate.
    + right; right. split; [reflexivity|]. rewrite andb_false_r.
      split; [discriminate|]. intros H. apply andb_prop in H as [H _].
      apply Nat.leb_le in H. rewrite <- E6. symmetry. apply slice_to_all. lia.
    + right; right. split; [reflexivity|]. rewrite !andb_false_r. split; discriminate.
  - right; right.
    assert (Hws : (5 <=? length s)%nat && true = true -> s = "ws://").
    { intros H. rewrite andb_true_r in H. apply Nat.leb_le in H.
      rewrite <- E5. symmetry. apply slice_to_all. lia. }
    assert (Hwss : (6 <=? length s)%nat && String.eqb (slice_to s 6) "wss://" = true
                   -> s = "wss://").
    { intros H. apply andb_prop in H as [H _]. apply Nat.leb_le in H. lia. }
    replace (6 <? length s)%nat with false by (symmetry; apply Nat.ltb_ge; lia).
    cbn [andb]. repeat split; assumption.
  - right; right.
    assert (Hwss : (6 <=? length s)%nat && String.eqb (slice_to s 6) "wss://" = true
                   -> s = "wss://").
    { intros H. apply andb_prop in H as [H _]. apply Nat.leb_le in H. lia. }
    replace (6 <? length s)%nat with false by (symmetry; apply Nat.ltb_ge; lia).
    cbn [andb]. rewrite andb_false_r. repeat split; [discriminate | assumption].
Qed.

(** X1.  [convertWSToHTTP] is idempotent on every string: converting its
    result again changes nothing, so the [HTTPEndpoint] of
    [DefaultCBCConfig] is stable under the conversion. *)
Theorem convertWSToHTTP_idempotent (wsEndpoint : string) :
  convertWSToHTTP (convertWSToHTTP wsEndpoint) = convertWSToHTTP wsEndpoint
  /\ convertWSToHTTP (HTTPEndpoint (DefaultCBCConfig wsEndpoint))
     = HTTPEndpoint (DefaultCBCConfig wsEndpoint)
  /\ WSEndpoint (DefaultCBCConfig wsEndpoint) = wsEndpoint.
Proof.
  assert (H : convertWSToHTTP (convertWSToHTTP wsEndpoint) = convertWSToHTTP wsEndpoint).
  { destruct (convertWSToHTTP_cases wsEndpoint)
      as [(r & _ & _ & ->) | [(r & _ & _ & ->) | (Hs & _)]].
    - apply convertWSToHTTP_http.
    - apply convertWSToHTTP_https.
    - now rewrite !Hs. }
  split; [exact H|]. split; [exact H | reflexivity].
Qed.

(** X2.  The result of [convertWSToHTTP] begins with "ws://" only for the
    bare input "ws://", and with "wss://" only for the bare input
    "wss://": these two inputs fail the strict length tests and come back
    unchanged, every other WebSocket endpoint is rewritten. *)
Theorem convertWSToHTTP_bare_scheme (wsEndpoint : string) :
  (HasPrefix (convertWSToHTTP wsEndpoint) "ws://" = true <-> wsEndpoint = "ws://")
  /\ (HasPrefix (convertWSToHTTP wsEndpoint) "wss://" = true <-> wsEndpoint = "wss://").
Proof.
  split; (split; [|intros ->; reflexivity]);
    destruct (convertWSToHTTP_cases wsEndpoint)
      as [(r & _ & _ & ->) | [(r & _ & _ & ->) | (-> & H5 & H6)]];
    try assumption;
    cbn [append]; rewrite ?HasPrefix_cons; cbn [Ascii.eqb Bool.eqb andb];
    discriminate.
Qed.

Lemma IsCBCPallet_names (palletName : string) :
  IsCBCPallet palletName = true ->
  palletName = "PalletCbcPoi" \/ palletName = "PalletCbcPos" \/ palletName = "Dcf".
Proof.
  unfold IsCBCPallet, CBCPalletNames; cbn [IsCBCPallet_range].
  destruct (String.eqb_spec "PalletCbcPoi" palletName); [auto|].
  destruct (String.eqb_spec "PalletCbcPos" palletName); [auto|].
  destruct (String.eqb_spec "Dcf" palletName); [auto | discriminate].
Qed.

(** X3.  [IsCBCPallet] holds exactly of the three names of
    [CBCPalletNames], compared byte by byte, and each pallet it accepts is
    listed in [CBCModules], the module list that [insertRuntimeVersion]
    stores. *)
Theorem IsCBCPallet_iff (palletName : string) :
  (IsCBCPallet palletName = true <-> In palletName CBCPalletNames)
  /\ (IsCBCPallet palletName = true -> Contains CBCModules palletName = true).
Proof.
  split; [split|].
  - intros H. apply IsCBCPallet_names in H as [-> | [-> | ->]]; cbn; auto.
  - cbn. intros [<- | [<- | [<- | []]]]; reflexivity.
  - intros H. apply IsCBCPallet_names in H as [-> | [-> | ->]]; reflexivity.
Qed.

End Conversion.

(* ------------------------------------------------------------------ *)
(** ** More on the RPC call and the fetch loops *)

Section Fetching.

Context {Store : Type} {json : Unmarshaler}.
Variable node : Node.
Implicit Types (w : World Store) (c : CBCInitializer).

(** X4.  [makeRPCCall] succeeds exactly when the node answers with status
    200 and a response envelope without an error object, and then it
    returns that envelope; in every case it counts as one invocation and
    leaves the store alone. *)
Theorem makeRPCCall_success_iff (c : CBCInitializer) (req : RPCRequest)
  (w : World Store) (resp : RPCResponse) :
  (fst (makeRPCCall node c req w) = Ok resp
   <-> node (rpcCalls w) (httpURL c) req = Reply http_StatusOK (Envelope resp)
       /\ RespError resp = None)
  /\ snd (makeRPCCall node c req w) = advance w 1 [EvRPC (httpURL c) req].
Proof.
  unfold makeRPCCall, roundTrip, bind, ret; cbn [fst snd].
  split; [|reflexivity]. unfold rpcResult. split.
  - destruct (node _ _ _) as [e|e|e|code body]; try discriminate.
    destruct (Z.eqb_spec code http_StatusOK) as [->|]; [|discriminate]. cbn [negb].
    destruct body as [e|e|resp0]; try discriminate.
    destruct (RespError resp0) eqn:E; [discriminate|].
    intros [= <-]. now split.
  - intros [-> ->]. reflexivity.
Qed.

Lemma fetch_event_retry c i what req :
  Forall (fetch_event c req) (retryEvents c i what).
Proof.
  unfold retryEvents. destruct (0 <? i)%Z; repeat constructor.
Qed.

Lemma fetch_event_attempt c i what req :
  Forall (fetch_event c req)
    (retryEvents c i what ++ [EvRPC (httpURL c) req])%list.
Proof.
  apply Forall_app. split; [apply fetch_event_retry|].
  repeat constructor.
Qed.

Lemma fetchMetadata_loop_events n : forall c i last w,
  exists k evs,
    snd (fetchMetadata_loop node c n i last w) = advance w k evs
    /\ (k <= n)%nat /\ Forall (fetch_event c metadataReq) evs.
Proof.
  induction n as [|n IH]; intros c i last w.
  - exists 0%nat, []. cbn. rewrite advance_0_nil. repeat split; [lia | constructor].
  - rewrite fetchMetadata_loop_S. cbv zeta.
    destruct (metadataOf _) as [hex|e].
    + eexists 1%nat, _. repeat split; [lia | apply fetch_event_attempt].
    + destruct (IH c (i + 1)%Z (Some e)
                  (advance w 1 (retryEvents c i "metadata"
                                ++ [EvRPC (httpURL c) metadataReq])%list))
        as (k & evs & -> & Hk & Hevs).
      rewrite advance_advance. eexists _, _. repeat split; [lia|].
      apply Forall_app. split; [apply fetch_event_attempt | exact Hevs].
Qed.

Lemma fetchRuntimeVersion_loop_events n : forall c i last w,
  exists k evs,
    snd (fetchRuntimeVersion_loop node c n i last w) = advance w k evs
    /\ (k <= n)%nat /\ Forall (fetch_event c versionReq) evs.
Proof.
  induction n as [|n IH]; intros c i last w.
  - exists 0%nat, []. cbn. rewrite advance_0_nil. repeat split; [lia | constructor].
  - rewrite fetchRuntimeVersion_loop_S. cbv zeta.
    destruct (versionOf _) as [v|e].
    + eexists 1%nat, _. repeat split; [lia | apply fetch_event_attempt].
    + destruct (IH c (i + 1)%Z (Some e)
                  (advance w 1 (retryEvents c i "runtime version"
                                ++ [EvRPC (httpURL c) versionReq])%list))
        as (k & evs & -> & Hk & Hevs).
      rewrite advance_advance. eexists _, _. repeat split; [lia|].
      apply Forall_app. split; [apply fetch_event_attempt | exact Hevs].
Qed.

(** X5.  Whatever the node does and whatever [retries] is, each fetch makes
    at most [retries] RPC invocations (none when [retries] is not
    positive), all of its own request at the HTTP URL, sleeps only the
    configured wait, and never touches the store. *)
Theorem fetch_bounded (c : CBCInitializer) (w : World Store) :
  (exists k evs,
     snd (fetchRuntimeVersion node c w) = advance w k evs
     /\ (Z.of_nat k <= Z.max 0 (retries c))%Z
     /\ Forall (fetch_event c versionReq) evs)
  /\ (exists k evs,
        snd (fetchMetadata node c w) = advance w k evs
        /\ (Z.of_nat k <= Z.max 0 (retries c))%Z
        /\ Forall (fetch_event c metadataReq) evs).
Proof.
  split.
  - destruct (fetchRuntimeVersion_loop_events (Z.to_nat (retries c)) c 0%Z None w)
      as (k & evs & H & Hk & Hevs).
    exists k, evs. repeat split; [exact H | lia | exact Hevs].
  - destruct (fetchMetadata_loop_events (Z.to_nat (retries c)) c 0%Z None w)
      as (k & evs & H & Hk & Hevs).
    exists k, evs. repeat split; [exact H | lia | exact Hevs].
Qed.

(** X6.  With a retry budget that is not positive the loops do not run:
    each fetch fails at once, without any RPC invocation, and as no error
    was ever recorded the message ends in the bad-verb rendering of a nil
    error and wraps nothing. *)
Theorem fetch_without_budget (c : CBCInitializer) (w : World Store) :
  (retries c <= 0)%Z ->
  let failure :=
    errorString ("failed after " ++ fmt_d (retries c) ++ " retries: %!w(<nil>)") in
  fetchRuntimeVersion node c w = (Err failure, w)
  /\ fetchMetadata node c w = (Err failure, w)
  /\ Unwrap failure = None.
Proof.
  intros H failure. unfold fetchRuntimeVersion, fetchMetadata.
  replace (Z.to_nat (retries c)) with 0%nat by lia.
  subst failure. cbn [fetchRuntimeVersion_loop fetchMetadata_loop Errorf_w].
  unfold ret. rewrite string_app_assoc. cbn [append]. repeat split.
  all: now rewrite string_app_assoc.
Qed.

End Fetching.

Section FirstSuccess.

Context {Store : Type} {json : Unmarshaler}.
Variable node : Node.
Implicit Types (w : World Store) (c : CBCInitializer).

Lemma attempt_sleeps c i what req :
  filter is_sleep (retryEvents c i what ++ [EvRPC (httpURL c) req])%list
  = repeat (EvSleep (retryWait c)) (if (0 <? i)%Z then 1 else 0).
Proof. unfold retryEvents. now destruct (0 <? i)%Z. Qed.

Lemma all_fail_shift {A} (outcome : Exchange -> result A) url req from j :
  all_fail node outcome url req from (S j) ->
  all_fail node outcome url req (1 + from) j.
Proof.
  intros H k Hk. destruct (H (S k)) as [e He]; [lia|]. exists e.
  now replace (k + (1 + from))%nat with (S k + from)%nat by lia.
Qed.

Lemma fetchMetadata_loop_first_success j : forall n c i last w metadataHex,
  (j < n)%nat -> (0 <= i)%Z ->
  all_fail node metadataOf (httpURL c) metadataReq (rpcCalls w) j ->
  metadataOf (node (j + rpcCalls w)%nat (httpURL c) metadataReq) = Ok metadataHex ->
  exists evs,
    fetchMetadata_loop node c n i last w = (Ok metadataHex, advance w (S j) evs)
    /\ filter is_sleep evs
       = repeat (EvSleep (retryWait c)) (if (0 <? i)%Z then S j else j)
    /\ Forall (fetch_event c metadataReq) evs.
Proof.
  induction j as [|j IH]; intros n c i last w hex Hn Hi Hfail Hok;
    (destruct n as [|n]; [lia|]); rewrite fetchMetadata_loop_S; cbv zeta.
  - cbn [Nat.add] in Hok. rewrite Hok. eexists. split; [reflexivity|].
    split; [apply attempt_sleeps | apply fetch_event_attempt].
  - destruct (Hfail 0%nat) as [e He]; [lia|]. cbn [Nat.add] in He. rewrite He.
    destruct (IH n c (i + 1)%Z (Some e)
                (advance w 1 (retryEvents c i "metadata"
                              ++ [EvRPC (httpURL c) metadataReq])%list) hex)
      as (evs & Heq & Hs & Hev).
    + lia.
    + lia.
    + rewrite rpcCalls_advance. now apply all_fail_shift.
    + rewrite rpcCalls_advance.
      now replace (j + (1 + rpcCalls w))%nat with (S j + rpcCalls w)%nat by lia.
    + rewrite Heq, advance_advance. eexists. split; [f_equal; f_equal; lia|].
      split.
      * rewrite filter_app, attempt_sleeps, Hs.
        replace (0 <? i + 1)%Z with true by (symmetry; apply Z.ltb_lt; lia).
        rewrite <- repeat_app. f_equal. destruct (0 <? i)%Z; lia.
      * apply Forall_app. split; [apply fetch_event_attempt | exact Hev].
Qed.

Lemma fetchRuntimeVersion_loop_first_success j : forall n c i last w version,
  (j < n)%nat -> (0 <= i)%Z ->
  all_fail node versionOf (httpURL c) versionReq (rpcCalls w) j ->
  versionOf (node (j + rpcCalls w)%nat (httpURL c) versionReq) = Ok version ->
  exists evs,
    fetchRuntimeVersion_loop node c n i last w = (Ok version, advance w (S j) evs)
    /\ filter is_sleep evs
       = repeat (EvSleep (retryWait c)) (if (0 <? i)%Z then S j else j)
    /\ Forall (fetch_event c versionReq) evs.
Proof.
  induction j as [|j IH]; intros n c i last w v Hn Hi Hfail Hok;
    (destruct n as [|n]; [lia|]); rewrite fetchRuntimeVersion_loop_S; cbv zeta.
  - cbn [Nat.add] in Hok. rewrite Hok. eexists. split; [reflexivity|].
    split; [apply attempt_sleeps | apply fetch_event_attempt].
  - destruct (Hfail 0%nat) as [e He]; [lia|]. cbn [Nat.add] in He. rewrite He.
    destruct (IH n c (i + 1)%Z (Some e)
                (advance w 1 (retryEvents c i "runtime version"
                              ++ [EvRPC (httpURL c) versionReq])%list) v)
      as (evs & Heq & Hs & Hev).
    + lia.
    + lia.
    + rewrite rpcCalls_advance. now apply all_fail_shift.
    + rewrite rpcCalls_advance.
      now replace (j + (1 + rpcCalls w))%nat with (S j + rpcCalls w)%nat by lia.
    + rewrite Heq, advance_advance. eexists. split; [f_equal; f_equal; lia|].
      split.
      * rewrite filter_app, attempt_sleeps, Hs.
        replace (0 <? i + 1)%Z with true by (symmetry; apply Z.ltb_lt; lia).
        rewrite <- repeat_app. f_equal. destruct (0 <? i)%Z; lia.
      * apply Forall_app. split; [apply fetch_event_attempt | exact Hev].
Qed.

(** X7.  A fetch returns the value of the first attempt that does not
    fail: when the first [j] attempts fail and the next one, still within
    the retry budget, succeeds, the fetch returns its value after exactly
    [j + 1] RPC invocations and [j] sleeps of the configured wait, and the
    earlier errors are forgotten. *)
Theorem fetch_first_success (c : CBCInitializer) (w : World Store) (j : nat) :
  (Z.of_nat j < retries c)%Z ->
  (forall version,
     all_fail node versionOf (httpURL c) versionReq (rpcCalls w) j ->
     versionOf (node (j + rpcCalls w)%nat (httpURL c) versionReq) = Ok version ->
     exists evs,
       fetchRuntimeVersion node c w = (Ok version, advance w (S j) evs)
       /\ filter is_sleep evs = repeat (EvSleep (retryWait c)) j
       /\ Forall (fetch_event c versionReq) evs)
  /\ (forall metadataHex,
        all_fail node metadataOf (httpURL c) metadataReq (rpcCalls w) j ->
        metadataOf (node (j + rpcCalls w)%nat (httpURL c) metadataReq) = Ok metadataHex ->
        exists evs,
          fetchMetadata node c w = (Ok metadataHex, advance w (S j) evs)
          /\ filter is_sleep evs = repeat (EvSleep (retryWait c)) j
          /\ Forall (fetch_event c metadataReq) evs).
Proof.
  intros Hj. split.
  - intros v Hfail Hok.
    apply (fetchRuntimeVersion_loop_first_success j (Z.to_nat (retries c)) c 0%Z
             None w v); [lia | lia | exact Hfail | exact Hok].
  - intros hex Hfail Hok.
    apply (fetchMetadata_loop_first_success j (Z.to_nat (retries c)) c 0%Z
             None w hex); [lia | lia | exact Hfail | exact Hok].
Qed.

End FirstSuccess.

(* ------------------------------------------------------------------ *)
(** ** More on the insert *)

Section Insert.

Context {Store : Type} {dao : IDao Store}.
Implicit Types (w : World Store) (c : CBCInitializer).

Lemma insertRuntimeVersion_eq c (v : RuntimeVersion) (metadataHex : string) w :
  let inserting :=
    EvLog Info ("Inserting runtime version " ++ fmt_d (SpecVersion v)
                ++ " into database...") in
  let created := CreateRuntimeVersion (SpecName v) (SpecVersion v) 0 (store w) in
  let affected := SetRuntimeData (SpecVersion v) CBCModules metadataHex (snd created) in
  let w' :=
    advance (setStore w (snd affected)) 0
      [inserting;
       EvCreateRuntimeVersion (SpecName v) (SpecVersion v) 0;
       EvLog Info ("CreateRuntimeVersion returned: " ++ fmt_d (fst created));
       EvSetRuntimeData (SpecVersion v) CBCModules metadataHex;
       EvLog Info ("SetRuntimeData affected " ++ fmt_d (fst affected) ++ " rows")] in
  let createAndVerify :=
    match RuntimeVersionRecent (snd affected) with
    | Some r =>
        if negb (RecSpecVersion r =? SpecVersion v)%Z
           || (length (RawData r) <? 100)%nat
        then (Some verificationError, w')
        else (None,
              advance w' 0
                [EvLog Info ("Runtime version " ++ fmt_d (SpecVersion v)
                             ++ " inserted/updated successfully with "
                             ++ fmt_d (Z.of_nat (length (RawData r)))
                             ++ " bytes of metadata")])
    | None => (Some verificationError, w')
    end in
  insertRuntimeVersion c v metadataHex w =
  match RuntimeVersionRecent (store w) with
  | Some r =>
      if (RecSpecVersion r =? SpecVersion v)%Z && (100 <? length (RawData r))%nat
      then (None,
            advance w 0
              [inserting;
               EvLog Info ("Runtime version " ++ fmt_d (SpecVersion v)
                           ++ " already exists with "
                           ++ fmt_d (Z.of_nat (length (RawData r)))
                           ++ " bytes of metadata - skipping insert")])
      else createAndVerify
  | None => createAndVerify
  end.
Proof.
  cbv zeta. unfold insertRuntimeVersion, dao_CreateRuntimeVersion,
    dao_SetRuntimeData, CBCModules, verificationError.
  run.
  destruct (RuntimeVersionRecent (store w)) as [r0|];
    [destruct (_ && _); [now run|]|];
    run;
    destruct (CreateRuntimeVersion _ _ _ _) as [cr s1]; run; cbn [fst snd];
    destruct (SetRuntimeData _ _ _ _) as [af s2]; run; cbn [fst snd];
    (destruct (RuntimeVersionRecent s2) as [r|]; [|reflexivity]);
    destruct (_ || _); now run.
Qed.

Lemma already_stored_test (v : RuntimeVersion) w :
  match RuntimeVersionRecent (store w) with
  | Some r => (RecSpecVersion r =? SpecVersion v)%Z && (100 <? length (RawData r))%nat
  | None => false
  end = true <-> already_stored v w.
Proof.
  unfold already_stored. destruct (RuntimeVersionRecent (store w)) as [r|].
  - split.
    + intros H. apply andb_prop in H as [H1 H2].
      apply Z.eqb_eq in H1. apply Nat.ltb_lt in H2. now exists r.
    + intros (r' & [= <-] & H1 & H2).
      apply Z.eqb_eq in H1. apply Nat.ltb_lt in H2. now rewrite H1, H2.
  - split; [discriminate|]. intros (r' & [=] & _).
Qed.

(** X8.  [insertRuntimeVersion] writes nothing when the most recent record
    already has the fetched spec version and more than 100 bytes of
    metadata, whatever the fetched metadata is; otherwise it issues exactly
    one [CreateRuntimeVersion] at block number 0 followed by one
    [SetRuntimeData] with the module list [CBCModules] and the fetched
    metadata.  It never makes an RPC invocation. *)
Theorem insertRuntimeVersion_writes (c : CBCInitializer) (v : RuntimeVersion)
  (metadataHex : string) (w : World Store) :
  let r := insertRuntimeVersion c v metadataHex w in
  let stored :=
    snd (SetRuntimeData (SpecVersion v) CBCModules metadataHex
           (snd (CreateRuntimeVersion (SpecName v) (SpecVersion v) 0 (store w)))) in
  (already_stored v w ->
   fst r = None
   /\ exists evs, snd r = advance w 0 evs /\ filter is_write evs = [])
  /\ (~ already_stored v w ->
      exists evs,
        snd r = advance (setStore w stored) 0 evs
        /\ filter is_write evs
           = [EvCreateRuntimeVersion (SpecName v) (SpecVersion v) 0;
              EvSetRuntimeData (SpecVersion v) CBCModules metadataHex]).
Proof.
  cbv zeta. rewrite insertRuntimeVersion_eq. cbv zeta.
  pose proof (already_stored_test v w) as Ht.
  split.
  - intros H. apply Ht in H.
    destruct (RuntimeVersionRecent (store w)) as [r0|]; [|discriminate].
    rewrite H. split; [reflexivity|]. eexists. split; reflexivity.
  - intros H.
    assert (Hf : match RuntimeVersionRecent (store w) with
                 | Some r => (RecSpecVersion r =? SpecVersion v)%Z
                             && (100 <? length (RawData r))%nat
                 | None => false
                 end = false).
    { destruct (match RuntimeVersionRecent (store w) with
                | Some r => _ | None => false end) eqn:E; [|reflexivity].
      elim H. now apply Ht. }
    destruct (RuntimeVersionRecent (store w)) as [r0|]; [rewrite Hf|];
      (destruct (RuntimeVersionRecent _) as [r|];
       [destruct (_ || _)|]);
      cbn [snd]; autorewrite with world;
      eexists; split; reflexivity.
Qed.

(** X9.  When [insertRuntimeVersion] returns no error, the most recent
    record of the store has the fetched spec version and at least 100 bytes
    of metadata; the only error it ever returns is the verification
    error. *)
Theorem insertRuntimeVersion_post (c : CBCInitializer) (v : RuntimeVersion)
  (metadataHex : string) (w : World Store) :
  let r := insertRuntimeVersion c v metadataHex w in
  (fst r = None ->
   exists rec,
     RuntimeVersionRecent (store (snd r)) = Some rec
     /\ RecSpecVersion rec = SpecVersion v
     /\ (100 <= length (RawData rec))%nat)
  /\ (forall e, fst r = Some e -> e = verificationError).
Proof.
  cbv zeta. rewrite insertRuntimeVersion_eq. cbv zeta.
  assert (Hcv : forall s,
    let out :=
      match RuntimeVersionRecent s with
      | Some r =>
          if negb (RecSpecVersion r =? SpecVersion v)%Z
             || (length (RawData r) <? 100)%nat
          then (Some verificationError, setStore w s)
          else (None, setStore w s)
      | None => (Some verificationError, setStore w s)
      end in
    (fst out = None ->
     exists rec, RuntimeVersionRecent s = Some rec
                 /\ RecSpecVersion rec = SpecVersion v
                 /\ (100 <= length (RawData rec))%nat)
    /\ (forall e, fst out = Some e -> e = verificationError)).
  { intros s. cbv zeta. destruct (RuntimeVersionRecent s) as [r|].
    - destruct (Z.eqb_spec (RecSpecVersion r) (SpecVersion v)) as [E|E];
        destruct (Nat.ltb_spec (length (RawData r)) 100) as [L|L]; cbn [negb orb fst];
        (split; [try discriminate | intros e; try discriminate; now intros [= <-]]).
      intros _. now exists r.
    - split; [discriminate | intros e; now intros [= <-]]. }
  set (s := snd (SetRuntimeData _ _ _ _)).
  specialize (Hcv s). cbv zeta in Hcv.
  destruct (RuntimeVersionRecent (store w)) as [r0|] eqn:E0.
  - destruct (Z.eqb_spec (RecSpecVersion r0) (SpecVersion v)) as [E|E];
      destruct (Nat.ltb_spec 100 (length (RawData r0))) as [L|L]; cbn [andb].
    + split; [|discriminate]. intros _. exists r0. cbn [snd].
      autorewrite with world. repeat split; [exact E0 | exact E | lia].
    + destruct (RuntimeVersionRecent s) as [r|] eqn:Es; [destruct (_ || _)|];
        cbn [fst snd] in *; autorewrite with world; rewrite ?Es; exact Hcv.
    + destruct (RuntimeVersionRecent s) as [r|] eqn:Es; [destruct (_ || _)|];
        cbn [fst snd] in *; autorewrite with world; rewrite ?Es; exact Hcv.
    + destruct (RuntimeVersionRecent s) as [r|] eqn:Es; [destruct (_ || _)|];
        cbn [fst snd] in *; autorewrite with world; rewrite ?Es; exact Hcv.
  - destruct (RuntimeVersionRecent s) as [r|] eqn:Es; [destruct (_ || _)|];
      cbn [fst snd] in *; autorewrite with world; rewrite ?Es; exact Hcv.
Qed.

End Insert.

(* ------------------------------------------------------------------ *)
(** ** What [Initialize] does to the world *)

Section InitializeShape.

Context {Store : Type} {dao : IDao Store} {json : Unmarshaler}.
Variable node : Node.
Implicit Types (w : World Store) (c : CBCInitializer).

Lemma insertRuntimeVersion_events c (v : RuntimeVersion) (metadataHex : string) w :
  exists s' evs,
    snd (insertRuntimeVersion c v metadataHex w) = advance (setStore w s') 0 evs
    /\ Forall (insert_event metadataHex) evs.
Proof.
  rewrite insertRuntimeVersion_eq. cbv zeta.
  set (s := snd (SetRuntimeData _ _ _ _)).
  destruct (RuntimeVersionRecent (store w)) as [r0|]; [destruct (_ && _)|].
  1: { cbn [snd]. exists (store w). eexists. rewrite setStore_same.
       split; [reflexivity|]. repeat constructor. }
  all: destruct (RuntimeVersionRecent s) as [r|]; [destruct (_ || _)|];
    cbn [snd]; autorewrite with world;
    eexists s, _; (split; [reflexivity|]); repeat constructor.
Qed.

Lemma fetch_event_initialize c r req ev :
  req = versionReq \/ req = metadataReq ->
  fetch_event c req ev -> initialize_event c r ev.
Proof.
  intros Hreq. destruct ev; cbn; try tauto.
  intros [-> ->]. now split.
Qed.

Lemma insert_event_initialize c r metadataHex ev :
  HasPrefix metadataHex "0x" = true ->
  insert_event metadataHex ev -> initialize_event c r ev.
Proof.
  intros Hp. destruct ev; cbn; try tauto.
  intros [-> ->]. now split.
Qed.

Lemma Initialize_shape c w :
  exists s' k evs,
    snd (Initialize node c w) = advance (setStore w s') k evs
    /\ (k <= 2 * Z.to_nat (retries c))%nat
    /\ Forall (initialize_event c (fst (Initialize node c w))) evs.
Proof.
  destruct (usable_dec (RuntimeVersionRecent (store w))) as [(r & Hr & Hp) | Hno].
  { rewrite (Initialize_skip node c w r Hr Hp). cbn [fst snd].
    exists (store w), 0%nat. eexists. rewrite setStore_same.
    split; [reflexivity|]. split; [lia | repeat constructor]. }
  rewrite Initialize_bootstrap by assumption. cbv zeta.
  unfold fetchRuntimeVersion, fetchMetadata.
  match goal with
  | |- context [fetchRuntimeVersion_loop node c ?n ?i ?l ?w0] =>
      destruct (fetchRuntimeVersion_loop_events node n c i l w0)
        as (k1 & evs1 & H1 & Hk1 & He1);
      destruct (fetchRuntimeVersion_loop node c n i l w0) as [[v|e] w1]
  end; cbn [snd] in H1; subst w1.
  2: { cbn [fst snd]. autorewrite with world.
       exists (store w). eexists _, _. rewrite setStore_same.
       split; [reflexivity|]. split; [lia|].
       apply Forall_app. split; [repeat constructor|].
       eapply Forall_impl; [|exact He1].
       intros ev. apply fetch_event_initialize. now left. }
  match goal with
  | |- context [fetchMetadata_loop node c ?n ?i ?l ?w0] =>
      destruct (fetchMetadata_loop_events node n c i l w0)
        as (k2 & evs2 & H2 & Hk2 & He2);
      destruct (fetchMetadata_loop node c n i l w0) as [[hex|e] w2] eqn:Em
  end; cbn [snd] in H2; subst w2.
  2: { cbn [fst snd]. autorewrite with world.
       exists (store w). eexists _, _. rewrite setStore_same.
       split; [reflexivity|]. split; [lia|].
       apply Forall_app. split; [repeat constructor|].
       apply Forall_app. split.
       - eapply Forall_impl; [|exact He1].
         intros ev. apply fetch_event_initialize. now left.
       - apply Forall_app. split; [repeat constructor|].
         eapply Forall_impl; [|exact He2].
         intros ev. apply fetch_event_initialize. now right. }
  assert (Hp : HasPrefix hex "0x" = true).
  { apply fetchMetadata_loop_Ok in Em as (j & _ & Hm).
    now apply metadataOf_prefixed in Hm. }
  match goal with
  | |- context [insertRuntimeVersion c v hex ?w0] =>
      destruct (insertRuntimeVersion_events c v hex w0) as (s' & evs3 & H3 & He3);
      destruct (insertRuntimeVersion c v hex w0) as [[e|] w3]
  end; cbn [snd] in H3; subst w3; cbn [fst snd]; autorewrite with world;
    exists s'; eexists _, _;
    (split; [reflexivity|]); (split; [lia|]);
    repeat (apply Forall_app; split);
    try (repeat constructor; assumption);
    try (eapply Forall_impl; [|exact He1];
         intros ev; apply fetch_event_initialize; now left);
    try (eapply Forall_impl; [|exact He2];
         intros ev; apply fetch_event_initialize; now right);
    try (eapply Forall_impl; [|exact He3];
         intros ev; now apply insert_event_initialize).
Qed.

(** X10.  Across a call of [Initialize] the world only grows: its trace is
    extended and, whatever the node and the store do, every RPC invocation
    is a [state_getRuntimeVersion] or [state_getMetadata] request at the
    HTTP URL, every sleep is the configured wait, records are created at
    block number 0 with the module list [CBCModules], and metadata is
    stored or registered with the codec only if it begins with "0x"; it is
    registered only by a call that returns success. *)
Theorem Initialize_events (c : CBCInitializer) (w : World Store) :
  exists s' k evs,
    snd (Initialize node c w) = advance (setStore w s') k evs
    /\ Forall (initialize_event c (fst (Initialize node c w))) evs
    /\ (forall spec raw,
          In (EvLatest spec raw) evs ->
          fst (Initialize node c w) = None /\ HasPrefix raw "0x" = true).
Proof.
  destruct (Initialize_shape c w) as (s' & k & evs & H & _ & He).
  exists s', k, evs. split; [exact H|]. split; [exact He|].
  intros spec raw Hin.
  rewrite Forall_forall in He. exact (He _ Hin).
Qed.

(** X11.  [Initialize] makes at most twice [retries] RPC invocations, that
    is at most six with the initializer that [NewCBCInitializer] builds. *)
Theorem Initialize_call_bound (c : CBCInitializer) (w : World Store) :
  (rpcCalls (snd (Initialize node c w))
   <= rpcCalls w + 2 * Z.to_nat (retries c))%nat
  /\ (forall ws,
        rpcCalls (snd (Initialize node (NewCBCInitializer ws) w))
        <= rpcCalls w + 6)%nat.
Proof.
  assert (H : forall c',
    (rpcCalls (snd (Initialize node c' w))
     <= rpcCalls w + 2 * Z.to_nat (retries c'))%nat).
  { intros c'. destruct (Initialize_shape c' w) as (s' & k & evs & -> & Hk & _).
    autorewrite with world. lia. }
  split; [apply H|]. intros ws. apply (H (NewCBCInitializer ws)).
Qed.

End InitializeShape.

(* ------------------------------------------------------------------ *)
(** ** A bootstrap and the start after it *)

Section Restart.

Context {Store : Type} {dao : IDao Store} {json : Unmarshaler}.
Variable node : Node.
Implicit Types (w : World Store) (c : CBCInitializer).

Variables (c : CBCInitializer) (w w1 w2 : World Store).
Variables (v : RuntimeVersion) (metadataHex : string).
Hypothesis unusable : ~ usable (RuntimeVersionRecent (store w)).
Hypothesis version_fetched :
  fetchRuntimeVersion node c (advance w 0 bootstrapStart) = (Ok v, w1).
Hypothesis metadata_fetched :
  fetchMetadata node c (advance w1 0 (fetchedVersion v)) = (Ok metadataHex, w2).

Lemma fetched_store : store w2 = store w.
Proof.
  pose proof version_fetched as Hv. pose proof metadata_fetched as Hm.
  apply fetchRuntimeVersion_loop_fetched in Hv as (k1 & evs1 & -> & _).
  now apply fetchMetadata_loop_fetched in Hm as (k2 & evs2 & -> & _).
Qed.

Lemma fetched_writes : filter is_write (trace w2) = filter is_write (trace w).
Proof.
  pose proof version_fetched as Hv. pose proof metadata_fetched as Hm.
  apply fetchRuntimeVersion_loop_fetched in Hv as (k1 & evs1 & -> & _ & _ & H1).
  apply fetchMetadata_loop_fetched in Hm as (k2 & evs2 & -> & _ & _ & H2).
  autorewrite with world. rewrite !filter_app, H1, H2. cbn. now rewrite !app_nil_r.
Qed.

Lemma fetched_prefix : HasPrefix metadataHex "0x" = true.
Proof.
  pose proof metadata_fetched as Hm.
  apply fetchMetadata_loop_Ok in Hm as (j & _ & Hm).
  now apply metadataOf_prefixed in Hm.
Qed.

Lemma Initialize_after_fetches :
  Initialize node c w =
  let (ins, w3) :=
    insertRuntimeVersion c v metadataHex
      (advance w2 0
         [EvLog Info ("Fetched metadata: " ++ fmt_d (Z.of_nat (length metadataHex))
                      ++ " bytes")]) in
  match ins with
  | Some err => (Some (Errorf_w "failed to insert runtime version: " (Some err)), w3)
  | None =>
      (None,
       advance w3 0
         [EvLatest (SpecVersion v) metadataHex;
          EvLog Info "CBC Chain initialization completed successfully"])
  end.
Proof.
  rewrite Initialize_bootstrap by exact unusable. cbv zeta.
  pose proof version_fetched as Hv. pose proof metadata_fetched as Hm.
  unfold bootstrapStart, fetchedVersion in Hv, Hm.
  now rewrite Hv, Hm.
Qed.

Lemma not_already_stored_test :
  ~ already_stored v w ->
  match RuntimeVersionRecent (store w) with
  | Some r => (RecSpecVersion r =? SpecVersion v)%Z && (100 <? length (RawData r))%nat
  | None => false
  end = false.
Proof.
  intros H. destruct (match RuntimeVersionRecent (store w) with
                      | Some r => _ | None => false end) eqn:E; [|reflexivity].
  elim H. now apply already_stored_test.
Qed.

(** The world after the writes of a bootstrap and its log lines. *)
Lemma Initialize_written (rec : RuntimeVersionRecord) :
  ~ already_stored v w ->
  let created := CreateRuntimeVersion (SpecName v) (SpecVersion v) 0 (store w) in
  let affected := SetRuntimeData (SpecVersion v) CBCModules metadataHex (snd created) in
  RuntimeVersionRecent (snd affected) = Some rec ->
  RecSpecVersion rec = SpecVersion v ->
  RawData rec = metadataHex ->
  let written :=
    [EvLog Info ("Fetched metadata: " ++ fmt_d (Z.of_nat (length metadataHex))
                 ++ " bytes");
     EvLog Info ("Inserting runtime version " ++ fmt_d (SpecVersion v)
                 ++ " into database...");
     EvCreateRuntimeVersion (SpecName v) (SpecVersion v) 0;
     EvLog Info ("CreateRuntimeVersion returned: " ++ fmt_d (fst created));
     EvSetRuntimeData (SpecVersion v) CBCModules metadataHex;
     EvLog Info ("SetRuntimeData affected " ++ fmt_d (fst affected) ++ " rows")] in
  Initialize node c w =
  if (length metadataHex <? 100)%nat
  then (Some (Errorf_w "failed to insert runtime version: " (Some verificationError)),
        advance (setStore w2 (snd affected)) 0 written)
  else (None,
        advance (setStore w2 (snd affected)) 0
          (written
           ++ [EvLog Info ("Runtime version " ++ fmt_d (SpecVersion v)
                           ++ " inserted/updated successfully with "
                           ++ fmt_d (Z.of_nat (length metadataHex))
                           ++ " bytes of metadata");
               EvLatest (SpecVersion v) metadataHex;
               EvLog Info "CBC Chain initialization completed successfully"])%list).
Proof.
  intros Hno created affected Hrec Hspec Hraw written.
  rewrite Initialize_after_fetches, insertRuntimeVersion_eq. cbv zeta.
  autorewrite with world. rewrite fetched_store.
  fold created. fold affected.
  rewrite Hrec, Hspec, Z.eqb_refl, Hraw. cbn [negb orb].
  pose proof (not_already_stored_test Hno) as Hf.
  destruct (RuntimeVersionRecent (store w)) as [r0|]; [rewrite Hf|];
    destruct (length metadataHex <? 100)%nat;
    autorewrite with world; reflexivity.
Qed.

(** X12.  Suppose the store holds no usable metadata and no record that
    makes the insert skip (none of the fetched spec version with more than
    100 bytes), both fetches succeed, and the store has read-after-write
    visibility.  If the fetched metadata has at least 100 bytes, the
    bootstrap returns success, leaves the fetched metadata as the most
    recent record and registers it with the codec; the next [Initialize]
    then skips the bootstrap without any RPC invocation. *)
Theorem bootstrap_round_trip :
  read_after_write dao ->
  ~ already_stored v w ->
  (100 <= length metadataHex)%nat ->
  let r := Initialize node c w in
  fst r = None
  /\ (exists rec,
        RuntimeVersionRecent (store (snd r)) = Some rec
        /\ RecSpecVersion rec = SpecVersion v /\ RawData rec = metadataHex)
  /\ In (EvLatest (SpecVersion v) metadataHex) (trace (snd r))
  /\ fst (Initialize node c (snd r)) = None
  /\ rpcCalls (snd (Initialize node c (snd r))) = rpcCalls (snd r).
Proof.
  intros Hraw Hno Hlen r.
  destruct (Hraw (store w) (SpecName v) (SpecVersion v) 0%Z CBCModules metadataHex)
    as (rec & Hrec & Hspec & Hdata).
  pose proof (Initialize_written rec Hno Hrec Hspec Hdata) as Hi. cbv zeta in Hi.
  replace (length metadataHex <? 100)%nat with false in Hi
    by (symmetry; apply Nat.ltb_ge; lia).
  subst r. rewrite Hi. cbn [fst snd]. autorewrite with world.
  split; [reflexivity|]. split; [now exists rec|]. split.
  - apply in_or_app. right. cbn. tauto.
  - erewrite Initialize_skip;
      [ | autorewrite with world; exact Hrec
        | rewrite Hdata; exact fetched_prefix ].
    cbn [fst snd]. now autorewrite with world.
Qed.

(** X13.  Under the same suppositions (no usable metadata and no record
    that makes the insert skip in the store, both fetches succeed,
    read-after-write visibility), if the fetched metadata has fewer than
    100 bytes the bootstrap cannot succeed: the record is written and
    [Initialize] fails with the verification error.  The record stays in
    the store, and as it begins with "0x" the next [Initialize] accepts it
    and returns success without any RPC invocation. *)
Theorem short_metadata_then_restart :
  read_after_write dao ->
  ~ already_stored v w ->
  (length metadataHex < 100)%nat ->
  let r := Initialize node c w in
  fst r = Some (Errorf_w "failed to insert runtime version: " (Some verificationError))
  /\ (exists rec,
        RuntimeVersionRecent (store (snd r)) = Some rec
        /\ RecSpecVersion rec = SpecVersion v /\ RawData rec = metadataHex)
  /\ fst (Initialize node c (snd r)) = None
  /\ rpcCalls (snd (Initialize node c (snd r))) = rpcCalls (snd r).
Proof.
  intros Hraw Hno Hlen r.
  destruct (Hraw (store w) (SpecName v) (SpecVersion v) 0%Z CBCModules metadataHex)
    as (rec & Hrec & Hspec & Hdata).
  pose proof (Initialize_written rec Hno Hrec Hspec Hdata) as Hi. cbv zeta in Hi.
  replace (length metadataHex <? 100)%nat with true in Hi
    by (symmetry; apply Nat.ltb_lt; lia).
  subst r. rewrite Hi. cbn [fst snd]. autorewrite with world.
  split; [reflexivity|]. split; [now exists rec|].
  erewrite Initialize_skip;
    [ | autorewrite with world; exact Hrec
      | rewrite Hdata; exact fetched_prefix ].
  cbn [fst snd]. now autorewrite with world.
Qed.

(** X14.  When the most recent record lacks the "0x" prefix but has the
    fetched spec version and more than 100 bytes, [Initialize] fetches,
    skips the insert and returns success with the fetched metadata
    registered: the store is not written, so it still holds no usable
    metadata and the next [Initialize] bootstraps again. *)
Theorem unprefixed_record_kept :
  already_stored v w ->
  let r := Initialize node c w in
  fst r = None
  /\ store (snd r) = store w
  /\ filter is_write (trace (snd r)) = filter is_write (trace w)
  /\ In (EvLatest (SpecVersion v) metadataHex) (trace (snd r))
  /\ ((0 < retries c)%Z ->
      (rpcCalls (snd r) < rpcCalls (snd (Initialize node c (snd r))))%nat).
Proof.
  intros Hst r.
  assert (Hi : exists evs,
    Initialize node c w = (None, advance w2 0 evs)
    /\ filter is_write evs = []
    /\ In (EvLatest (SpecVersion v) metadataHex) evs).
  { rewrite Initialize_after_fetches, insertRuntimeVersion_eq. cbv zeta.
    autorewrite with world. rewrite fetched_store.
    apply already_stored_test in Hst.
    destruct (RuntimeVersionRecent (store w)) as [r0|]; [|discriminate].
    rewrite Hst. autorewrite with world. eexists.
    split; [reflexivity|]. split; [reflexivity | cbn; tauto]. }
  destruct Hi as (evs & Hi & Hw & Hin).
  subst r. rewrite Hi. cbn [fst snd]. autorewrite with world.
  split; [reflexivity|]. split; [apply fetched_store|]. split.
  - rewrite !filter_app, Hw, fetched_writes. now rewrite app_nil_r.
  - split.
    + apply in_or_app. now right.
    + intros Hret.
      pose proof (Initialize_bootstrap_calls node c (advance w2 0 evs)) as Hb.
      autorewrite with world in Hb. rewrite fetched_store in Hb.
      specialize (Hb unusable Hret). cbn [Nat.add] in Hb. exact Hb.
Qed.

End Restart.

(* ------------------------------------------------------------------ *)
(** ** More on the finality check and the service start *)

Section Start.

Context {Store : Type} {dao : IDao Store} {json : Unmarshaler}.
Variable node : Node.
Implicit Types (w : World Store) (c : CBCInitializer).

Lemma VerifyDCFFinality_eq c w :
  VerifyDCFFinality node c w =
  let url := httpURL c in
  let verifying := EvLog Info "Verifying DCF finality integration..." in
  let w1 := advance w 1 [verifying; EvRPC url headReq] in
  match rpcResult (node (rpcCalls w) url headReq) with
  | Err err => (Some (Errorf_w "failed to get finalized head: " (Some err)), w1)
  | Ok resp =>
      match Unmarshal_string (Result resp) with
      | Err err =>
          (Some (Errorf_w "failed to unmarshal finalized hash: " (Some err)), w1)
      | Ok finalizedHash =>
          let w2 :=
            advance w 2 [verifying; EvRPC url headReq;
                         EvRPC url (blockReq finalizedHash)] in
          match rpcResult (node (S (rpcCalls w)) url (blockReq finalizedHash)) with
          | Err err =>
              (Some (Errorf_w "failed to get finalized block: " (Some err)), w2)
          | Ok resp' =>
              match Unmarshal_map (Result resp') with
              | Some err =>
                  (Some (Errorf_w "failed to unmarshal block data: " (Some err)), w2)
              | None =>
                  (None,
                   advance w2 0
                     (EvLog Info ("Finalized block hash: " ++ finalizedHash)
                      :: (if String.eqb finalizedHash "0x"
                             || HasSuffix finalizedHash genesisSuffix
                          then finalityWarnings else finalityPassed)))
              end
          end
      end
  end.
Proof.
  cbv zeta. unfold VerifyDCFFinality. fold headReq. run.
  destruct (rpcResult _) as [resp|e]; [|reflexivity].
  destruct (Unmarshal_string _) as [h|e]; [|reflexivity].
  fold (blockReq h). run.
  destruct (rpcResult _) as [resp'|e]; [|reflexivity].
  destruct (Unmarshal_map _) as [e|]; [reflexivity|]. run.
  now destruct (_ || _); run.
Qed.

Lemma VerifyDCFFinality_calls c w :
  exists k evs,
    snd (VerifyDCFFinality node c w) = advance w k evs /\ (k <= 2)%nat.
Proof.
  rewrite VerifyDCFFinality_eq. cbv zeta.
  destruct (rpcResult _) as [resp|e]; [|eexists 1%nat, _; split; [reflexivity | lia]].
  destruct (Unmarshal_string _) as [h|e];
    [|eexists 1%nat, _; split; [reflexivity | lia]].
  destruct (rpcResult _) as [resp'|e];
    [|eexists 2%nat, _; split; [reflexivity | lia]].
  destruct (Unmarshal_map _) as [e|];
    [eexists 2%nat, _; split; [reflexivity | lia]|].
  autorewrite with world. eexists _, _. split; [reflexivity | lia].
Qed.

Ltac finality_events :=
  unfold finalityWarnings, finalityPassed;
  repeat match goal with
         | |- Forall _ (_ :: _) => constructor
         | |- Forall _ [] => constructor
         | |- finality_event _ (EvLog _ _) => exact I
         | |- finality_event _ (EvRPC _ headReq) => split; [reflexivity | now left]
         | |- finality_event _ (EvRPC _ (blockReq _)) =>
             split; [reflexivity | right; eexists; reflexivity]
         | |- is_rpc _ = false => reflexivity
         end.

(** X15.  [VerifyDCFFinality] makes one or two RPC invocations, both at the
    HTTP URL, and otherwise only logs: it never sleeps, never writes to the
    store and registers nothing.  The second invocation is a
    [chain_getBlock] of the hash that the first one returned, and it is
    made only if the first one succeeded and its result decoded to a
    string. *)
Theorem VerifyDCFFinality_frame (c : CBCInitializer) (w : World Store) :
  exists k evs,
    snd (VerifyDCFFinality node c w) = advance w k evs
    /\ (1 <= k <= 2)%nat
    /\ Forall (finality_event c) evs
    /\ (forall url finalizedHash,
          In (EvRPC url (blockReq finalizedHash)) evs ->
          exists resp,
            rpcResult (node (rpcCalls w) (httpURL c) headReq) = Ok resp
            /\ Unmarshal_string (Result resp) = Ok finalizedHash).
Proof.
  rewrite VerifyDCFFinality_eq. cbv zeta.
  assert (Hhead : forall url h,
    In (EvRPC url (blockReq h))
       [EvLog Info "Verifying DCF finality integration..."; EvRPC (httpURL c) headReq] ->
    False).
  { intros url h [H | [H | []]]; discriminate H. }
  destruct (rpcResult _) as [resp|e] eqn:E1.
  2: { eexists 1%nat, _. split; [reflexivity|]. split; [lia|].
       split; [finality_events|].
       intros url h H. destruct (Hhead _ _ H). }
  destruct (Unmarshal_string _) as [h|e] eqn:Eh.
  2: { eexists 1%nat, _. split; [reflexivity|]. split; [lia|].
       split; [finality_events|].
       intros url h H. destruct (Hhead _ _ H). }
  assert (Hblock : forall url h' rest,
    Forall (fun ev => is_rpc ev = false) rest ->
    In (EvRPC url (blockReq h'))
       (EvLog Info "Verifying DCF finality integration..."
        :: EvRPC (httpURL c) headReq :: EvRPC (httpURL c) (blockReq h) :: rest) ->
    exists resp0, Ok resp = Ok resp0 /\ Unmarshal_string (Result resp0) = Ok h').
  { intros url h' rest Hrest [H | [H | [H | H]]]; try discriminate H.
    - injection H as _ <-. now exists resp.
    - rewrite Forall_forall in Hrest. apply Hrest in H. discriminate H. }
  destruct (rpcResult (node (S _) _ _)) as [resp'|e].
  2: { eexists 2%nat, _. split; [reflexivity|]. split; [lia|].
       split; [finality_events|].
       intros url h' H. apply (Hblock url h' []); [constructor | exact H]. }
  destruct (Unmarshal_map _) as [e|].
  { eexists 2%nat, _. split; [reflexivity|]. split; [lia|].
    split; [finality_events|].
    intros url h' H. apply (Hblock url h' []); [constructor | exact H]. }
  autorewrite with world. cbn [Nat.add app].
  eexists 2%nat, _. split; [reflexivity|]. split; [lia|].
  split.
  - destruct (_ || _); finality_events.
  - intros url h' H. eapply Hblock; [|exact H].
    destruct (_ || _); finality_events.
Qed.



(** X16.  [VerifyDCFFinality] returns no error exactly when both of its
    calls succeed and both results decode; whether the hash looks like
    genesis does not matter.  An error it returns wraps the failure of the
    call or of the decoding under one of four messages. *)
Theorem VerifyDCFFinality_nil_iff (c : CBCInitializer) (w : World Store) :
  (fst (VerifyDCFFinality node c w) = None
   <-> exists resp finalizedHash resp',
         rpcResult (node (rpcCalls w) (httpURL c) headReq) = Ok resp
         /\ Unmarshal_string (Result resp) = Ok finalizedHash
         /\ rpcResult (node (S (rpcCalls w)) (httpURL c) (blockReq finalizedHash))
            = Ok resp'
         /\ Unmarshal_map (Result resp') = None)
  /\ (forall e,
        fst (VerifyDCFFinality node c w) = Some e ->
        exists text cause,
          e = Errorf_w text (Some cause)
          /\ In text ["failed to get finalized head: ";
                      "failed to unmarshal finalized hash: ";
                      "failed to get finalized block: ";
                      "failed to unmarshal block data: "]).
Proof.
  rewrite VerifyDCFFinality_eq. cbv zeta.
  destruct (rpcResult _) as [resp|e1] eqn:E1.
  2: { split; [split; [discriminate | intros (r & h & r' & [=] & _)]|].
       intros e [= <-]. exists "failed to get finalized head: ", e1. split; [reflexivity | cbn; tauto]. }
  destruct (Unmarshal_string _) as [h|e2] eqn:Eh.
  2: { split; [split; [discriminate|]|].
       - intros (r & h & r' & [= <-] & Hh & _). congruence.
       - intros e [= <-]. exists "failed to unmarshal finalized hash: ", e2. split; [reflexivity | cbn; tauto]. }
  destruct (rpcResult (node (S _) _ _)) as [resp'|e3] eqn:E2.
  2: { split; [split; [discriminate|]|].
       - intros (r & h0 & r' & [= <-] & Hh & H2 & _).
         assert (h0 = h) by congruence. subst h0. congruence.
       - intros e [= <-]. exists "failed to get finalized block: ", e3. split; [reflexivity | cbn; tauto]. }
  destruct (Unmarshal_map _) as [e4|] eqn:Em.
  { split; [split; [discriminate|]|].
    - intros (r & h0 & r' & [= <-] & Hh & H2 & Hm).
      assert (h0 = h) by congruence. subst h0.
      assert (r' = resp') by congruence. subst r'. congruence.
    - intros e [= <-]. exists "failed to unmarshal block data: ", e4. split; [reflexivity | cbn; tauto]. }
  split; [|discriminate]. split; [|reflexivity].
  intros _. now exists resp, h, resp'.
Qed.

(** X17.  When [Initialize] fails, [initCBCChain] returns its error under
    "CBC initialization failed" without running the finality check: the
    world is the one [Initialize] left.  [New] then logs the whole message
    as a warning and falls back to [initSubRuntimeLatest]. *)
Theorem initCBCChain_Initialize_fails (NetworkNode WSEndPoint : string)
  (w w1 : World Store) (err : error) :
  Contains (ToLower NetworkNode) "cbc" = true ->
  Initialize node (NewCBCInitializer WSEndPoint)
    (advance w 0
       [EvLog Info "Initializing CBC Chain specific components...";
        EvLog Info ("Detected CBC Chain network: " ++ NetworkNode)])
  = (Some err, w1) ->
  initCBCChain node NetworkNode WSEndPoint w
  = (Some (wrapError ("CBC initialization failed: " ++ Error err) err), w1)
  /\ New node NetworkNode WSEndPoint w
     = (initSubRuntimeLatest,
        advance w1 0
          [EvLog Warning ("CBC initialization warning: CBC initialization failed: "
                          ++ Error err)]).
Proof.
  intros Happ Hinit.
  assert (H : initCBCChain node NetworkNode WSEndPoint w
              = (Some (wrapError ("CBC initialization failed: " ++ Error err) err), w1)).
  { rewrite (initCBCChain_applicable node NetworkNode WSEndPoint w Happ). cbv zeta.
    now rewrite Hinit. }
  split; [exact H|]. unfold New, bind. rewrite H. now run.
Qed.

(** X18.  [New] continues with [initSubRuntimeLatestWithoutFetch] exactly
    when the network name contains "cbc" in any case of its three letters
    and [Initialize] returns success; in every other case it takes
    [initSubRuntimeLatest].  Whatever happens it makes at most eight RPC
    invocations. *)
Theorem New_dispatch (NetworkNode WSEndPoint : string) (w : World Store) :
  let c := NewCBCInitializer WSEndPoint in
  let w0 :=
    advance w 0
      [EvLog Info "Initializing CBC Chain specific components...";
       EvLog Info ("Detected CBC Chain network: " ++ NetworkNode)] in
  (fst (New node NetworkNode WSEndPoint w) = initSubRuntimeLatestWithoutFetch
   <-> cbc_any_case NetworkNode /\ fst (Initialize node c w0) = None)
  /\ (fst (New node NetworkNode WSEndPoint w) = initSubRuntimeLatest
      <-> ~ (cbc_any_case NetworkNode /\ fst (Initialize node c w0) = None))
  /\ (rpcCalls (snd (New node NetworkNode WSEndPoint w)) <= rpcCalls w + 8)%nat.
Proof.
  intros c w0.
  assert (H :
    (fst (New node NetworkNode WSEndPoint w) = initSubRuntimeLatestWithoutFetch
     <-> cbc_any_case NetworkNode /\ fst (Initialize node c w0) = None)
    /\ (rpcCalls (snd (New node NetworkNode WSEndPoint w)) <= rpcCalls w + 8)%nat).
  { rewrite <- !Contains_ToLower_cbc. unfold New, bind.
    destruct (Contains (ToLower NetworkNode) "cbc") eqn:Happ.
    - rewrite (initCBCChain_applicable node NetworkNode WSEndPoint w Happ). cbv zeta.
      fold c. fold w0.
      destruct (Initialize_shape node c w0) as (s' & k & evs & Hw & Hk & _).
      change (Z.to_nat (retries c)) with 3%nat in Hk.
      destruct (Initialize node c w0) as [[e|] w1]; cbn [fst snd] in *; subst w1.
      + run. split; [split; [discriminate | intros [_ [=]]]|].
        subst w0. autorewrite with world. cbn [snd]. autorewrite with world. lia.
      + destruct (VerifyDCFFinality_calls c (advance (setStore w0 s') k evs))
          as (k' & evs' & Hv & Hk').
        destruct (VerifyDCFFinality node c _) as [ve w2]; cbn [snd] in Hv; subst w2.
        unfold ret. cbn [fst snd]. split; [tauto|].
        subst w0. autorewrite with world. lia.
    - rewrite (initCBCChain_not_applicable node NetworkNode WSEndPoint w Happ).
      run. split; [split; [discriminate | intros [[=] _]]|].
      cbn [snd]. autorewrite with world. lia. }
  destruct H as [H1 H2]. split; [exact H1|]. split; [|exact H2].
  rewrite <- H1.
  destruct (fst (New node NetworkNode WSEndPoint w)); split.
  - intros _ H. discriminate H.
  - reflexivity.
  - discriminate.
  - intros H. elim H. reflexivity.
Qed.

End Start.

(* ------------------------------------------------------------------ *)
(** ** The scheme of the HTTP URL *)

Section Scheme.

Lemma Index_tail_none (a : ascii) (s p : string) :
  Index (String a s) p = None -> Index s p = None.
Proof.
  rewrite Index_unfold. destruct (HasPrefix (String a s) p); [discriminate|].
  now destruct (Index s p).
Qed.

Lemma Index_succ_not_prefix (s p : string) (j : nat) :
  Index s p = Some (S j) -> HasPrefix s p = false.
Proof.
  destruct s as [|a s]; cbn [Index]; destruct (HasPrefix _ p); congruence.
Qed.

Lemma HasPrefix_app_l (a b p : string) :
  HasPrefix a p = true -> HasPrefix (a ++ b) p = true.
Proof.
  intros H. apply HasPrefix_iff in H as [r ->].
  rewrite string_app_assoc. apply HasPrefix_app.
Qed.

(** A pattern without the letter h that begins [a ++ "h..."] lies within
    [a]. *)
Lemma HasPrefix_before_h (a rest : string) : forall p,
  Contains p "h" = false ->
  HasPrefix (a ++ String "h" rest) p = true -> HasPrefix a p = true.
Proof.
  induction a as [|x a IH]; intros [|b p] Hh H; try reflexivity.
  - cbn [append] in H. rewrite HasPrefix_cons in H.
    apply andb_prop in H as [Hb _]. apply Ascii.eqb_eq in Hb. subst b.
    discriminate Hh.
  - cbn [append] in H. rewrite HasPrefix_cons in H |- *.
    apply andb_prop in H as [Hb H]. rewrite Hb. cbn [andb].
    apply IH; [|exact H].
    apply Contains_false. apply Contains_false in Hh.
    now apply Index_tail_none in Hh.
Qed.

(** Replacing the first instance of a scheme by a text that begins with h
    cannot produce a string that begins with an h-free pattern, unless the
    string already began with it. *)
Lemma Replace1_no_new_prefix (s old rest p : string) :
  Contains p "h" = false ->
  HasPrefix s p = false ->
  HasPrefix (Replace1 s old (String "h" rest)) p = false.
Proof.
  intros Hh Hs. unfold Replace1.
  destruct (Index s old) as [j|]; [|exact Hs].
  destruct (HasPrefix (slice_to s j ++ _) p) eqn:E; [|reflexivity].
  rewrite <- Hs. symmetry.
  change (String "h" rest ++ slice_from s (j + length old))
    with (String "h" (rest ++ slice_from s (j + length old))) in E.
  apply HasPrefix_before_h in E; [|exact Hh].
  rewrite (slice_split s j). now apply HasPrefix_app_l.
Qed.

Lemma Replace1_prefix_replaced (s old new : string) :
  HasPrefix s old = true ->
  Replace1 s old new = new ++ slice_from s (length old).
Proof.
  intros H. unfold Replace1. now rewrite (Index_prefix s old H).
Qed.

(** X19.  The [httpURL] that [NewCBCInitializer] computes never begins
    with "ws://" or "wss://", whatever the endpoint is (the bare schemes
    included, unlike with [convertWSToHTTP]); the [nodeURL] keeps the
    endpoint as given. *)
Theorem NewCBCInitializer_scheme (wsEndpoint : string) :
  HasPrefix (httpURL (NewCBCInitializer wsEndpoint)) "ws://" = false
  /\ HasPrefix (httpURL (NewCBCInitializer wsEndpoint)) "wss://" = false
  /\ nodeURL (NewCBCInitializer wsEndpoint) = wsEndpoint.
Proof.
  unfold NewCBCInitializer; cbn [httpURL nodeURL].
  set (t := Replace1 wsEndpoint "ws://" "http://").
  assert (Ht : HasPrefix t "ws://" = false).
  { subst t. destruct (HasPrefix wsEndpoint "ws://") eqn:E.
    - now rewrite (Replace1_prefix_replaced _ _ "http://" E).
    - now apply Replace1_no_new_prefix. }
  split; [|split; [|reflexivity]].
  - destruct (HasPrefix t "wss://") eqn:E.
    + now rewrite (Replace1_prefix_replaced _ _ "https://" E).
    + now apply Replace1_no_new_prefix.
  - destruct (HasPrefix t "wss://") eqn:E.
    + now rewrite (Replace1_prefix_replaced _ _ "https://" E).
    + now apply Replace1_no_new_prefix.
Qed.

End Scheme.

(* ------------------------------------------------------------------ *)
(** ** The further statements at the test doubles *)

Import MoreDoubles.

Lemma memDao_read_after_write : read_after_write memDao.
Proof.
  intros [r|] name specVersion blockNum modules raw; cbn.
  - destruct (Z.eqb_spec (RecSpecVersion r) specVersion) as [E|E]; cbn.
    + rewrite E, Z.eqb_refl. cbn. eexists. split; [reflexivity|]. now split.
    + rewrite Z.eqb_refl. cbn. eexists. split; [reflexivity|]. now split.
  - rewrite Z.eqb_refl. cbn. eexists. split; [reflexivity|]. now split.
Qed.

Lemma fetch_without_budget_witness :
  fetchMetadata (Store := option RuntimeVersionRecord) (json := toyJSON)
    (liveNode sampleMetadata zero_hash) noBudget emptyWorld
  = (Err (errorString "failed after 0 retries: %!w(<nil>)"), emptyWorld).
Proof.
  apply (proj1 (proj2 (fetch_without_budget (Store := option RuntimeVersionRecord)
                         (json := toyJSON) (liveNode sampleMetadata zero_hash)
                         noBudget emptyWorld (Z.le_refl 0)))).
Defined.

Lemma fetch_first_success_witness :
  exists evs,
    fetchRuntimeVersion (Store := option RuntimeVersionRecord) (json := toyJSON)
      (lateNode 2 sampleMetadata zero_hash) sampleInit emptyWorld
    = (Ok sampleVersion, advance emptyWorld 3 evs)
    /\ filter is_sleep evs = [EvSleep (2 * Second); EvSleep (2 * Second)]
    /\ Forall (fetch_event sampleInit versionReq) evs.
Proof.
  apply (proj1 (fetch_first_success (Store := option RuntimeVersionRecord)
                  (json := toyJSON) (lateNode 2 sampleMetadata zero_hash)
                  sampleInit emptyWorld 2 eq_refl) sampleVersion).
  - intros [|[|k]] Hk; [eexists; reflexivity | eexists; reflexivity | lia].
  - reflexivity.
Defined.

Lemma bootstrap_round_trip_witness :
  fst (Initialize (dao := memDao) (json := toyJSON)
         (liveNode sampleMetadata zero_hash) sampleInit emptyWorld) = None
  /\ fst (Initialize (dao := memDao) (json := toyJSON)
            (liveNode sampleMetadata zero_hash) sampleInit
            (snd (Initialize (dao := memDao) (json := toyJSON)
                    (liveNode sampleMetadata zero_hash) sampleInit emptyWorld)))
     = None.
Proof.
  edestruct (bootstrap_round_trip (dao := memDao) (json := toyJSON)
               (liveNode sampleMetadata zero_hash) sampleInit emptyWorld)
    as (H1 & _ & _ & H2 & _).
  - intros (r & Hr & _). discriminate Hr.
  - vm_compute. reflexivity.
  - vm_compute. reflexivity.
  - exact memDao_read_after_write.
  - intros (r & Hr & _). discriminate Hr.
  - apply Nat.leb_le. reflexivity.
  - split; [exact H1 | exact H2].
Defined.

Lemma short_metadata_then_restart_witness :
  fst (Initialize (dao := memDao) (json := toyJSON)
         (liveNode shortMetadata zero_hash) sampleInit emptyWorld)
  = Some (Errorf_w "failed to insert runtime version: " (Some verificationError))
  /\ fst (Initialize (dao := memDao) (json := toyJSON)
            (liveNode shortMetadata zero_hash) sampleInit
            (snd (Initialize (dao := memDao) (json := toyJSON)
                    (liveNode shortMetadata zero_hash) sampleInit emptyWorld)))
     = None.
Proof.
  edestruct (short_metadata_then_restart (dao := memDao) (json := toyJSON)
               (liveNode shortMetadata zero_hash) sampleInit emptyWorld)
    as (H1 & _ & H2 & _).
  - intros (r & Hr & _). discriminate Hr.
  - vm_compute. reflexivity.
  - vm_compute. reflexivity.
  - exact memDao_read_after_write.
  - intros (r & Hr & _). discriminate Hr.
  - apply Nat.ltb_lt. reflexivity.
  - split; [exact H1 | exact H2].
Defined.

Lemma unprefixed_record_kept_witness :
  fst (Initialize (dao := memDao) (json := toyJSON)
         (liveNode sampleMetadata zero_hash) sampleInit (worldWith unprefixedRecord))
  = None
  /\ store (snd (Initialize (dao := memDao) (json := toyJSON)
                   (liveNode sampleMetadata zero_hash) sampleInit
                   (worldWith unprefixedRecord)))
     = Some unprefixedRecord.
Proof.
  edestruct (unprefixed_record_kept (dao := memDao) (json := toyJSON)
               (liveNode sampleMetadata zero_hash) sampleInit
               (worldWith unprefixedRecord))
    as (H1 & H2 & _).
  - intros (r & [= <-] & H). discriminate H.
  - vm_compute. reflexivity.
  - vm_compute. reflexivity.
  - exists unprefixedRecord. split; [reflexivity|]. split; [reflexivity|].
    apply Nat.ltb_lt. reflexivity.
  - split; [exact H1 | exact H2].
Defined.

Lemma initCBCChain_Initialize_fails_witness :
  fst (New (dao := memDao) (json := toyJSON) deadNode
         "cbc-chain" "ws://172.17.0.1:9933" emptyWorld) = initSubRuntimeLatest
  /\ rpcCalls (snd (New (dao := memDao) (json := toyJSON) deadNode
                      "cbc-chain" "ws://172.17.0.1:9933" emptyWorld)) = 3%nat.
Proof.
  edestruct (initCBCChain_Initialize_fails (dao := memDao) (json := toyJSON) deadNode
               "cbc-chain" "ws://172.17.0.1:9933" emptyWorld)
    as (_ & H).
  - reflexivity.
  - vm_compute. reflexivity.
  - rewrite H. split; reflexivity.
Defined.

Lemma insertRuntimeVersion_writes_witness :
  fst (insertRuntimeVersion (dao := memDao) sampleInit sampleVersion shortMetadata
         (worldWith (record sampleMetadata))) = None
  /\ store (snd (insertRuntimeVersion (dao := memDao) sampleInit sampleVersion
                   shortMetadata (worldWith (record sampleMetadata))))
     = Some (record sampleMetadata).
Proof.
  destruct (proj1 (insertRuntimeVersion_writes (dao := memDao) sampleInit sampleVersion
                     shortMetadata (worldWith (record sampleMetadata))))
    as (H & evs & Hw & _).
  - exists (record sampleMetadata). split; [reflexivity|]. split; [reflexivity|].
    apply Nat.ltb_lt. reflexivity.
  - split; [exact H | now rewrite Hw].
Defined.

Lemma insertRuntimeVersion_post_witness :
  exists rec,
    store (snd (insertRuntimeVersion (dao := memDao) sampleInit sampleVersion
                  sampleMetadata emptyWorld)) = Some rec
    /\ RecSpecVersion rec = 100%Z
    /\ (100 <= length (RawData rec))%nat.
Proof.
  apply (proj1 (insertRuntimeVersion_post (dao := memDao) sampleInit sampleVersion
                  sampleMetadata emptyWorld)).
  reflexivity.
Defined.

Lemma New_dispatch_witness :
  fst (New (dao := memDao) (json := toyJSON) deadNode
         "CBC-Chain" "ws://172.17.0.1:9933" (worldWith (record sampleMetadata)))
  = initSubRuntimeLatestWithoutFetch
  /\ fst (New (dao := memDao) (json := toyJSON) deadNode
            "CBC-Chain" "ws://172.17.0.1:9933" emptyWorld)
     = initSubRuntimeLatest.
Proof.
  split.
  - apply (proj2 (proj1 (New_dispatch (dao := memDao) (json := toyJSON) deadNode
                           "CBC-Chain" "ws://172.17.0.1:9933"
                           (worldWith (record sampleMetadata))))).
    split; [|reflexivity].
    exists "", "C"%char, "B"%char, "C"%char, "-Chain".
    split; [reflexivity|]. split; [now right|]. split; now right.
  - apply (proj2 (proj1 (proj2 (New_dispatch (dao := memDao) (json := toyJSON) deadNode
                                  "CBC-Chain" "ws://172.17.0.1:9933" emptyWorld)))).
    intros [_ H]. vm_compute in H. discriminate H.
Defined.
